(** * OSM history converter: indexing pass and resolution pass

    A shallow embedding of
    [tasks_docker_images/osm_converter_with_history_index/src/main.py]:
    the handler classes [OsmHandler], [IndexCreator] and [HistoryHandler],
    the worker entry point [create_osm_index], its parallel driver and the
    start-up checks of the main program.

    Python objects that are mutated in place become explicit state that
    the handler methods thread through a state-and-exception monad.  The
    modules [osm_index], [osm_processing], [osm_obj_transformer] and
    [gdal_handler] are imported by [main.py] but are separate files; the
    parts of them that [main.py] calls are modelled from the written
    specification and are marked as such. *)

From stdpp Require Import base option list list_numbers sorting gmap strings pretty.
From Stdlib Require Import ZArith Lia Ascii.

Local Open Scope Z_scope.

(** ** Exceptions and the handler monad *)

Inductive exn :=
  | KeyError (key : Z)          (* a shard slot missing from a dict *)
  | EntityKeyError              (* [processing_counter[""]] *)
  | ZeroDivisionError
  | ValueError                  (* [multiprocessing.Pool(0)] *)
  | TypeError
  | ShardsNotDivisible.         (* "--num_db_shards must be divisible by --num_threads" *)

Inductive result (A : Type) :=
  | Ok (a : A)
  | Raise (e : exn).
Arguments Ok {A} a.
Arguments Raise {A} e.

(** A method of an object with state [S]: it returns a value and the
    updated object, or raises. *)
Definition M (S A : Type) : Type := S -> result (A * S).

Definition ret {S A} (a : A) : M S A := fun s => Ok (a, s).

Definition bind {S A B} (m : M S A) (k : A -> M S B) : M S B :=
  fun s => match m s with
           | Ok (a, s') => k a s'
           | Raise e => Raise e
           end.

Definition raise {S A} (e : exn) : M S A := fun _ => Raise e.
Definition get {S} : M S S := fun s => Ok (s, s).
Definition put {S} (s : S) : M S unit := fun _ => Ok (tt, s).
Definition modify {S} (f : S -> S) : M S unit := fun s => Ok (tt, f s).

Declare Scope method_scope.
Delimit Scope method_scope with method.
Notation "'do' x <- m ; k" := (bind m (fun x => k))
  (at level 10, x pattern, m at level 100, k at level 200,
   format "'[v' 'do'  x  <-  m ; '/' k ']'") : method_scope.
Local Open Scope method_scope.

(** [for x in xs: body(x)] *)
Fixpoint for_each {S A} (xs : list A) (body : A -> M S unit) : M S unit :=
  match xs with
  | [] => ret tt
  | x :: xs' => do _ <- body x; for_each xs' body
  end.

(** Python's [a % b] on integers: floor remainder, an exception for
    [b = 0].  [Z.modulo] has the same sign convention for [b <> 0]. *)
Definition py_mod {S} (a b : Z) : M S Z :=
  if decide (b = 0) then raise ZeroDivisionError else ret (a mod b).

(** ** Data model: the records of the source stream *)

(** The keys of [OSM_ENTITIES = ["nodes", "ways", "relations"]]. *)
Inductive entity := nodes | ways | relations.

#[global] Instance entity_eq_dec : EqDecision entity.
Proof. solve_decision. Defined.

Definition OSM_ENTITIES : list entity := [nodes; ways; relations].

(** An osmium location, in osmium's fixed-point units of 1e-7 degree.  A
    node whose [location.valid()] is false is modelled by [None]. *)
Record Location := { lon : Z; lat : Z }.

Record Node := {
  node_id : Z;
  node_version : Z;
  node_timestamp : Z;               (* seconds since the epoch *)
  node_visible : bool;
  node_location : option Location }.

Record Way := {
  way_id : Z;
  way_version : Z;
  way_timestamp : Z;
  way_visible : bool;
  way_nodes : list Z }.

(** [member.type] is one of ["n"], ["w"], ["r"]. *)
Inductive member_type := type_n | type_w | type_r.

Record Member := {
  ref : Z;
  type : member_type;
  role : string }.

Record Relation := {
  relation_id : Z;
  relation_version : Z;
  relation_timestamp : Z;
  relation_visible : bool;
  members : list Member }.

Inductive osm_object :=
  | ONode (x : Node)
  | OWay (x : Way)
  | ORelation (x : Relation).

(** [osm_object.id] *)
Definition osm_id (o : osm_object) : Z :=
  match o with
  | ONode x => node_id x
  | OWay x => way_id x
  | ORelation x => relation_id x
  end.

Definition entity_of (o : osm_object) : entity :=
  match o with
  | ONode _ => nodes
  | OWay _ => ways
  | ORelation _ => relations
  end.

#[global] Instance Location_eq_dec : EqDecision Location.
Proof. solve_decision. Defined.
#[global] Instance Node_eq_dec : EqDecision Node.
Proof. solve_decision. Defined.
#[global] Instance Way_eq_dec : EqDecision Way.
Proof. solve_decision. Defined.
#[global] Instance member_type_eq_dec : EqDecision member_type.
Proof. solve_decision. Defined.
#[global] Instance Member_eq_dec : EqDecision Member.
Proof. solve_decision. Defined.
#[global] Instance Relation_eq_dec : EqDecision Relation.
Proof. solve_decision. Defined.

(** ** The processing counter: [{key: 0 for key in OSM_ENTITIES}] *)

Record counter := { c_nodes : Z; c_ways : Z; c_relations : Z }.

Definition create_processing_counter : counter :=
  {| c_nodes := 0; c_ways := 0; c_relations := 0 |}.

(** [processing_counter[e]] *)
Definition count (c : counter) (e : entity) : Z :=
  match e with
  | nodes => c_nodes c
  | ways => c_ways c
  | relations => c_relations c
  end.

(** [processing_counter[e] = v] *)
Definition set_count (c : counter) (e : entity) (v : Z) : counter :=
  match e with
  | nodes => {| c_nodes := v; c_ways := c_ways c; c_relations := c_relations c |}
  | ways => {| c_nodes := c_nodes c; c_ways := v; c_relations := c_relations c |}
  | relations => {| c_nodes := c_nodes c; c_ways := c_ways c; c_relations := v |}
  end.

(** ** External collaborators

    The stable hash behind the shard router and the geometry builder are
    outside the program; everything below is parametric in them. *)

(** The batch written to a temporary OSM file: ways first, then nodes,
    then relations, each under its simplified id. *)
Record osm_file := {
  file_ways : list (Z * Way);
  file_nodes : list (Z * Node);
  file_relations : list (Z * Relation) }.

Class External := {
  stable_hash : Z -> Z;
  (** [GDALHandler.osm_to_geojson(file, kind, target_ids)]: simplified id
      to GeoJSON text, for the ids whose geometry could be built. *)
  osm_to_geojson : osm_file -> entity -> list Z -> list (Z * string) }.

(** ** Shard router *)

(** Modelled from the spec: [osm_processing.get_uniformly_shard_index_from_id]
    is not part of [main.py]; section 4.1 gives it as
    [shard = stable_hash_u64(id) mod S]. *)
Definition get_uniformly_shard_index_from_id `{External} {S} (obj_id num_shards : Z) : M S Z :=
  py_mod (stable_hash obj_id) num_shards.

(** ** Versioned index store *)

Inductive db_path :=
  | ShardDb (shard_index : Z)       (* [<stem>_<shard_index>.sqlite.db] *)
  | MergedDb.                       (* [<stem>.sqlite.db] *)

(** Modelled from the spec: [osm_index.SQLiteOsmIndex] is not part of
    [main.py]; section 4.2 gives a store with [Put], [GetAsOf], [Commit]
    and [Close].  Rows wait in [buffered] until the next commit. *)
Record SQLiteOsmIndex := {
  db_file_path : db_path;
  node_rows : list Node;
  way_rows : list Way;
  relation_rows : list Relation;
  buffered : list osm_object }.

(** Modelled from the spec: [SQLiteOsmIndex(path).create()], an empty
    store (section 3, lifecycle). *)
Definition create (path : db_path) : SQLiteOsmIndex :=
  {| db_file_path := path; node_rows := []; way_rows := [];
     relation_rows := []; buffered := [] |}.

(** Modelled from the spec: [Put] of section 4.2; the row is buffered. *)
Definition put_row (o : osm_object) (ix : SQLiteOsmIndex) : SQLiteOsmIndex :=
  {| db_file_path := db_file_path ix;
     node_rows := node_rows ix;
     way_rows := way_rows ix;
     relation_rows := relation_rows ix;
     buffered := buffered ix ++ [o] |}.

(** Modelled from the spec: the three [add_*_to_index] methods are [Put]
    at the kind of the record. *)
Definition add_node_to_index (x : Node) := put_row (ONode x).
Definition add_way_to_index (x : Way) := put_row (OWay x).
Definition add_relation_to_index (x : Relation) := put_row (ORelation x).

Definition rows_of_nodes (os : list osm_object) : list Node :=
  omap (fun o => match o with ONode x => Some x | _ => None end) os.
Definition rows_of_ways (os : list osm_object) : list Way :=
  omap (fun o => match o with OWay x => Some x | _ => None end) os.
Definition rows_of_relations (os : list osm_object) : list Relation :=
  omap (fun o => match o with ORelation x => Some x | _ => None end) os.

(** Modelled from the spec: [Commit()] of section 4.2, which flushes the
    buffered writes. *)
Definition save (ix : SQLiteOsmIndex) : SQLiteOsmIndex :=
  {| db_file_path := db_file_path ix;
     node_rows := node_rows ix ++ rows_of_nodes (buffered ix);
     way_rows := way_rows ix ++ rows_of_ways (buffered ix);
     relation_rows := relation_rows ix ++ rows_of_relations (buffered ix);
     buffered := [] |}.

(** Modelled from the spec: [Close()] of section 4.2 flushes and releases
    the store. *)
Definition close (ix : SQLiteOsmIndex) : SQLiteOsmIndex := save ix.

(** Modelled from the spec: the row of [(kind, id)] with the greatest
    timestamp not after [ts] (section 4.2); of two rows with equal
    timestamps the later stored one. *)
Definition as_of {A} (ident stamp : A -> Z) (rows : list A) (obj_id ts : Z) : option A :=
  foldl (fun best x =>
           if bool_decide (ident x = obj_id /\ stamp x <= ts) then
             match best with
             | Some b => if bool_decide (stamp b <= stamp x) then Some x else best
             | None => Some x
             end
           else best) None rows.

(** Modelled from the spec: [GetAsOf(Node, id, ts)] of section 4.2; none
    when the row found is a deleted version without payload. *)
Definition get_node_from_index_by_timestamp (ix : SQLiteOsmIndex) (node_id' ts : Z) : option Node :=
  match as_of node_id node_timestamp (node_rows ix) node_id' ts with
  | Some x => if node_visible x || bool_decide (is_Some (node_location x)) then Some x else None
  | None => None
  end.

(** Modelled from the spec: [GetAsOf(Way, id, ts)] of section 4.2. *)
Definition get_way_from_index_by_timestamp (ix : SQLiteOsmIndex) (way_id' ts : Z) : option Way :=
  match as_of way_id way_timestamp (way_rows ix) way_id' ts with
  | Some x => if way_visible x || bool_decide (way_nodes x <> []) then Some x else None
  | None => None
  end.

(** Modelled from the spec: [Merge(dst, srcs)] of section 4.2. *)
Definition merge_dbs (srcs : list SQLiteOsmIndex) : SQLiteOsmIndex :=
  {| db_file_path := MergedDb;
     node_rows := concat (node_rows <$> srcs);
     way_rows := concat (way_rows <$> srcs);
     relation_rows := concat (relation_rows <$> srcs);
     buffered := [] |}.

(** ** [class OsmHandler(osmium.SimpleHandler)] *)

Module OsmHandler.

Record t := {
  processing_counter : counter;
  current_entity_type : option entity;     (* [None] is the initial [""] *)
  logging_range_count : Z;
  pool_size : Z;
  pool_index : Z }.

(** [OsmHandler.__init__] *)
Definition init (c : counter) (range size index : Z) : t :=
  {| processing_counter := c; current_entity_type := None;
     logging_range_count := range; pool_size := size; pool_index := index |}.

Definition set_current_entity_type (e : entity) (self : t) : t :=
  {| processing_counter := processing_counter self;
     current_entity_type := Some e;
     logging_range_count := logging_range_count self;
     pool_size := pool_size self;
     pool_index := pool_index self |}.

Definition set_processing_counter (c : counter) (self : t) : t :=
  {| processing_counter := c;
     current_entity_type := current_entity_type self;
     logging_range_count := logging_range_count self;
     pool_size := pool_size self;
     pool_index := pool_index self |}.

(** [self.processing_counter[self.current_entity_type]] *)
Definition current_count : M t Z :=
  do self <- get;
  match current_entity_type self with
  | None => raise EntityKeyError
  | Some e => ret (count (processing_counter self) e)
  end.

(** The counter of the current kind goes up by one; the log line written
    every [logging_range_count] records leaves the state alone. *)
Definition log_processing : M t unit :=
  do self <- get;
  match current_entity_type self with
  | None => raise EntityKeyError
  | Some e =>
      do _ <- put (set_processing_counter
                     (set_count (processing_counter self) e
                        (count (processing_counter self) e + 1)) self);
      do c <- current_count;
      do _ <- py_mod c (logging_range_count self);
      ret tt
  end.

Definition node (x : Node) : M t unit :=
  do _ <- modify (set_current_entity_type nodes);
  log_processing.

Definition way (x : Way) : M t unit :=
  do _ <- modify (set_current_entity_type ways);
  log_processing.

Definition relation (x : Relation) : M t unit :=
  do _ <- modify (set_current_entity_type relations);
  log_processing.

(** [is_item_index_for_current_thread]: whether the counter of the current
    kind, dealt over the workers, falls to this one. *)
Definition is_item_index_for_current_thread : M t bool :=
  do c <- current_count;
  do self <- get;
  do remainder <- py_mod c (pool_size self);
  ret (bool_decide (remainder = pool_index self)).

End OsmHandler.

(** ** [class IndexCreator(OsmHandler)]: the indexing pass of one worker *)

Module IndexCreator.

Record t := {
  base : OsmHandler.t;
  osm_indexer_map : gmap Z SQLiteOsmIndex;
  num_shards : Z;
  batch_size_to_commit : Z;
  is_id_hash_partitioned_shards : bool }.

Definition set_base (b : OsmHandler.t) (self : t) : t :=
  {| base := b;
     osm_indexer_map := osm_indexer_map self;
     num_shards := num_shards self;
     batch_size_to_commit := batch_size_to_commit self;
     is_id_hash_partitioned_shards := is_id_hash_partitioned_shards self |}.

Definition set_osm_indexer_map (m : gmap Z SQLiteOsmIndex) (self : t) : t :=
  {| base := base self;
     osm_indexer_map := m;
     num_shards := num_shards self;
     batch_size_to_commit := batch_size_to_commit self;
     is_id_hash_partitioned_shards := is_id_hash_partitioned_shards self |}.

(** A method inherited from [OsmHandler]. *)
Definition inherited {A} (m : M OsmHandler.t A) : M t A :=
  fun self => match m (base self) with
              | Ok (a, b) => Ok (a, set_base b self)
              | Raise e => Raise e
              end.

Definition commit_if_needed : M t unit :=
  do c <- inherited OsmHandler.current_count;
  do self <- get;
  do m <- py_mod c (batch_size_to_commit self);
  if decide (m = 0) then
    modify (fun self => set_osm_indexer_map (save <$> osm_indexer_map self) self)
  else ret tt.

(** The indexer handed to [process_node] is the object held in the map
    under [batch_index]; adding a row changes it in place. *)
Definition process_node (batch_index : Z) (o : osm_object) : M t unit :=
  match o with
  | ONode x =>
      do _ <- modify (fun self =>
                set_osm_indexer_map
                  (alter (add_node_to_index x) batch_index (osm_indexer_map self)) self);
      commit_if_needed
  | _ => raise TypeError
  end.

Definition process_way (batch_index : Z) (o : osm_object) : M t unit :=
  match o with
  | OWay x =>
      do _ <- modify (fun self =>
                set_osm_indexer_map
                  (alter (add_way_to_index x) batch_index (osm_indexer_map self)) self);
      commit_if_needed
  | _ => raise TypeError
  end.

Definition process_relation (batch_index : Z) (o : osm_object) : M t unit :=
  match o with
  | ORelation x =>
      do _ <- modify (fun self =>
                set_osm_indexer_map
                  (alter (add_relation_to_index x) batch_index (osm_indexer_map self)) self);
      commit_if_needed
  | _ => raise TypeError
  end.

(** The shard slot of a record: lines 164-167. *)
Definition batch_index `{External} (osm_object : osm_object) : M t Z :=
  do self <- get;
  if is_id_hash_partitioned_shards self then
    get_uniformly_shard_index_from_id (osm_id osm_object) (num_shards self)
  else
    do c <- inherited OsmHandler.current_count;
    py_mod c (num_shards self).

Definition process_osm_object `{External} (osm_object : osm_object)
    (osm_entity_type : option entity) : M t unit :=
  do batch_index <- batch_index osm_object;
  do self <- get;
  if decide (is_Some (osm_indexer_map self !! batch_index)) then
    do _ <- (if decide (osm_entity_type = Some nodes)
             then process_node batch_index osm_object else ret tt);
    do _ <- (if decide (osm_entity_type = Some ways)
             then process_way batch_index osm_object else ret tt);
    if decide (osm_entity_type = Some relations)
    then process_relation batch_index osm_object else ret tt
  else ret tt.

Definition node `{External} (x : Node) : M t unit :=
  do _ <- inherited (OsmHandler.node x);
  do self <- get;
  process_osm_object (ONode x) (OsmHandler.current_entity_type (base self)).

Definition way `{External} (x : Way) : M t unit :=
  do _ <- inherited (OsmHandler.way x);
  do self <- get;
  process_osm_object (OWay x) (OsmHandler.current_entity_type (base self)).

Definition relation `{External} (x : Relation) : M t unit :=
  do _ <- inherited (OsmHandler.relation x);
  do self <- get;
  process_osm_object (ORelation x) (OsmHandler.current_entity_type (base self)).

(** The callback osmium invokes for one record of the file. *)
Definition callback `{External} (o : osm_object) : M t unit :=
  match o with
  | ONode x => node x
  | OWay x => way x
  | ORelation x => relation x
  end.

(** [apply_file]: the callbacks in file order. *)
Definition apply_file `{External} (file : list osm_object) : M t unit :=
  for_each file callback.

End IndexCreator.

(** ** The worker entry point and its parallel driver *)

(** [IndexCreator(...)] with the default [batch_size_to_commit] and
    [logging_range_count], followed by [apply_file]. *)
Definition run_index_creator `{External} (file : list osm_object)
    (osm_indexer_map : gmap Z SQLiteOsmIndex) (indexing_processing_counter : counter)
    (num_shards : Z) (is_id_hash_partitioned_shards : bool)
    (pool_size pool_index : Z) : result (unit * IndexCreator.t) :=
  IndexCreator.apply_file file
    {| IndexCreator.base :=
         {| OsmHandler.processing_counter := indexing_processing_counter;
            OsmHandler.current_entity_type := None;
            OsmHandler.logging_range_count := 1000000;
            OsmHandler.pool_size := pool_size;
            OsmHandler.pool_index := pool_index |};
       IndexCreator.osm_indexer_map := osm_indexer_map;
       IndexCreator.num_shards := num_shards;
       IndexCreator.batch_size_to_commit := 1000000;
       IndexCreator.is_id_hash_partitioned_shards := is_id_hash_partitioned_shards |}.

(** [math.ceil(a / b)] for [b <> 0]. *)
Definition ceil_div (a b : Z) : Z := - ((- a) / b).

(** The stores a worker creates: one per index of
    [range(start_index, start_index + thread_batch_size)]. *)
Definition created_indexers (start_index thread_batch_size : Z) : gmap Z SQLiteOsmIndex :=
  foldl (fun m shard_index => <[shard_index := create (ShardDb shard_index)]> m)
        ∅ (seqZ start_index thread_batch_size).

(** The worker returns its closed stores (the files named in
    [db_files_map]) and its final counter. *)
Definition create_osm_index `{External} (file : list osm_object)
    (num_shards pool_size pool_index : Z) (is_id_hash_partitioned_shards : bool)
    : result (gmap Z SQLiteOsmIndex * counter) :=
  if decide (pool_size = 0) then Raise ZeroDivisionError else
  let thread_batch_size := ceil_div num_shards pool_size in
  let start_index := pool_index * thread_batch_size in
  let osm_indexer_map := created_indexers start_index thread_batch_size in
  match run_index_creator file osm_indexer_map create_processing_counter
          num_shards is_id_hash_partitioned_shards pool_size pool_index with
  | Ok (_, handler) =>
      Ok (close <$> IndexCreator.osm_indexer_map handler,
          OsmHandler.processing_counter (IndexCreator.base handler))
  | Raise e => Raise e
  end.

(** [[result.get() for result in results]]: the first failure is raised. *)
Fixpoint get_all {A} (results : list (result A)) : result (list A) :=
  match results with
  | [] => Ok []
  | Ok a :: rest =>
      match get_all rest with
      | Ok l => Ok (a :: l)
      | Raise e => Raise e
      end
  | Raise e :: _ => Raise e
  end.

(** The workers are separate processes over the same read-only file, so
    each result is a function of its arguments alone. *)
Definition run_create_osm_index_in_parallel `{External} (file : list osm_object)
    (num_threads num_db_shards : Z) (is_id_hash_partitioned_shards : bool)
    : result (gmap Z SQLiteOsmIndex * counter) :=
  if decide (num_threads <= 0) then Raise ValueError else
  let results :=
    (fun pool_index => create_osm_index file num_db_shards num_threads pool_index
                         is_id_hash_partitioned_shards) <$> seqZ 0 num_threads in
  match get_all results with
  | Ok dbs_and_counters =>
      match dbs_and_counters with
      | [] => Raise TypeError          (* [None] is unpacked by the caller *)
      | (_, first_counter) :: _ =>
          Ok (foldl (fun dbs db_and_counter => fst db_and_counter ∪ dbs) ∅ dbs_and_counters,
              first_counter)
      end
  | Raise e => Raise e
  end.

(** ** Start-up checks of the main program: lines 530-534 *)

Definition startup (num_threads num_db_shards : Z) : result Z :=
  let num_db_shards := if decide (num_threads > num_db_shards) then num_threads
                       else num_db_shards in
  if decide (num_threads = 0) then Raise ZeroDivisionError
  else if decide (num_db_shards mod num_threads <> 0) then Raise ShardsNotDivisible
  else Ok num_db_shards.

(** ** Python dicts whose insertion order is observed *)

Definition dict (A : Type) : Type := list (Z * A).

(** [key in d] *)
Definition dict_mem {A} (key : Z) (d : dict A) : bool :=
  bool_decide (key ∈ d.*1).

(** [d[key] = v]: an existing key keeps its position. *)
Fixpoint dict_set {A} (key : Z) (v : A) (d : dict A) : dict A :=
  match d with
  | [] => [(key, v)]
  | (k, v') :: d' => if decide (k = key) then (k, v) :: d' else (k, v') :: dict_set key v d'
  end.

(** [list(d.values())] *)
Definition dict_values {A} (d : dict A) : list A := d.*2.

(** ** Batch buffer *)

Definition by_simplified_id {A} (a b : Z * A) : Prop := a.1 <= b.1.

#[global] Instance by_simplified_id_dec {A} (a b : Z * A) : Decision (by_simplified_id a b).
Proof. unfold by_simplified_id. apply _. Defined.

(** Modelled from the spec: [osm_processing.BatchManager] is not part of
    [main.py]; section 4.5 gives its state and operations.  A record of a
    batch is kept with its simplified id, which is what the reverse map
    [simplified_to_original] pairs; the allocator of a kind is one more
    than the number of ids handed out since the last reset. *)
Module BatchManager.

(** Modelled from the spec: the batch state of sections 3 and 4.5, with
    the two settings [main.py] passes to the constructor. *)
Record t := {
  ways_batch_size : Z;
  entities_number : counter;
  simplified_nodes : list (Z * Node);           (* simplified_to_original, per kind *)
  simplified_ways : list (Z * Way);
  simplified_relations : list (Z * Relation);
  nodes_batch : list (Z * Node);                (* deps_nodes *)
  ways_batch : list (Z * Way);                  (* main_ways, or deps_ways of relations *)
  relations_batch : list (Z * Relation);        (* main relations and deps_relations *)
  main_relations : list (Z * Relation) }.

(** Modelled from the spec: [BatchManager(ways_batch_size, entities_number)];
    batch state is created empty. *)
Definition init (ways_batch_size : Z) (entities_number : counter) : t :=
  {| ways_batch_size := ways_batch_size; entities_number := entities_number;
     simplified_nodes := []; simplified_ways := []; simplified_relations := [];
     nodes_batch := []; ways_batch := []; relations_batch := [];
     main_relations := [] |}.

(** Modelled from the spec: [Reset()] discards the batch state. *)
Definition reset : M t unit :=
  modify (fun self => init (ways_batch_size self) (entities_number self)).

(** Modelled from the spec: a main entity gets the next simplified id of
    its kind, from a counter that only grows until the reset. *)
Definition fresh {A} (x : A) (known : list (Z * A)) : (Z * A) * list (Z * A) :=
  let sid := Z.of_nat (length known) + 1 in
  ((sid, x), known ++ [(sid, x)]).

(** Modelled from the spec: a dependency whose payload already has a
    simplified id keeps it; a distinct payload gets its own. *)
Definition intern {A} `{EqDecision A} (x : A) (known : list (Z * A))
  : (Z * A) * list (Z * A) :=
  match list_find (fun p => p.2 = x) known with
  | Some (_, p) => (p, known)
  | None => fresh x known
  end.

(** Modelled from the spec: the simplified ids of a list of dependencies. *)
Fixpoint intern_all {A} `{EqDecision A} (xs : list A) (known : list (Z * A))
  : list (Z * A) * list (Z * A) :=
  match xs with
  | [] => ([], known)
  | x :: xs' =>
      let '(p, known') := intern x known in
      let '(ps, known'') := intern_all xs' known' in
      (p :: ps, known'')
  end.

(** Modelled from the spec: an update of the reverse maps. *)
Definition set_simplified (ns : list (Z * Node)) (ws : list (Z * Way))
    (rs : list (Z * Relation)) (self : t) : t :=
  {| ways_batch_size := ways_batch_size self; entities_number := entities_number self;
     simplified_nodes := ns; simplified_ways := ws; simplified_relations := rs;
     nodes_batch := nodes_batch self; ways_batch := ways_batch self;
     relations_batch := relations_batch self;
     main_relations := main_relations self |}.

(** Modelled from the spec: an update of the batches. *)
Definition set_batches (ns : list (Z * Node)) (ws : list (Z * Way))
    (rs : list (Z * Relation)) (mains : list (Z * Relation)) (self : t) : t :=
  {| ways_batch_size := ways_batch_size self; entities_number := entities_number self;
     simplified_nodes := simplified_nodes self;
     simplified_ways := simplified_ways self;
     simplified_relations := simplified_relations self;
     nodes_batch := ns; ways_batch := ws; relations_batch := rs;
     main_relations := mains |}.

(** Modelled from the spec: the simplified ids of a main way and of its
    node dependencies, the first half of [AddMainWay]. *)
Definition replace_ids_in_way_and_its_dependencies (way_dict : Way)
    (way_nodes_dicts : list Node) : M t ((Z * Way) * list (Z * Node)) :=
  do self <- get;
  let '(nodes', ns) := intern_all way_nodes_dicts (simplified_nodes self) in
  let '(way', ws) := fresh way_dict (simplified_ways self) in
  do _ <- put (set_simplified ns ws (simplified_relations self) self);
  ret (way', nodes').

(** Modelled from the spec: the simplified ids of a main relation and of
    its dependencies, the first half of [AddMainRelation]. *)
Definition replace_ids_in_relation_and_its_dependencies (relation_dict : Relation)
    (relation_nodes : list Node) (relation_ways : list Way)
    (relation_relations : list Relation)
  : M t ((Z * Relation) * list (Z * Node) * list (Z * Way) * list (Z * Relation)) :=
  do self <- get;
  let '(nodes', ns) := intern_all relation_nodes (simplified_nodes self) in
  let '(ways', ws) := intern_all relation_ways (simplified_ways self) in
  let '(relations', rs) := intern_all relation_relations (simplified_relations self) in
  let '(relation', rs') := fresh relation_dict rs in
  do _ <- put (set_simplified ns ws rs' self);
  ret (relation', nodes', ways', relations').

(** Modelled from the spec: a batch is keyed by simplified id, so an id
    already there is stored once. *)
Definition add_missing {A} (xs : list (Z * A)) (batch : list (Z * A)) : list (Z * A) :=
  foldl (fun b p => if bool_decide (p.1 ∈ b.*1) then b else b ++ [p]) batch xs.

(** Modelled from the spec: the second half of [AddMainWay] and
    [AddMainRelation].  [main.py] passes a main way as the one element of
    the list of ways, and a main relation as a fourth argument. *)
Definition add_osm_dicts_to_batches (nodes_dicts : list (Z * Node))
    (ways_dicts : list (Z * Way)) (relations_dicts : list (Z * Relation))
    (main_relation : option (Z * Relation)) : M t unit :=
  modify (fun self =>
    set_batches (add_missing nodes_dicts (nodes_batch self))
                (add_missing ways_dicts (ways_batch self))
                (add_missing (relations_dicts ++ option_list main_relation)
                             (relations_batch self))
                (main_relations self ++ option_list main_relation) self).

(** Modelled from the spec: the number of main entities of a kind that
    wait for their geometry. *)
Definition pending (kind : entity) (self : t) : Z :=
  match kind with
  | nodes => 0
  | ways => Z.of_nat (length (ways_batch self))
  | relations => Z.of_nat (length (main_relations self))
  end.

(** Modelled from the spec: [IsFull(kind, counter)] holds when the main
    entities since the last flush reach the size threshold, or at the end
    of the stream, which the arguments show as the counter of the kind
    having reached the number of entities of that kind.  The constructor
    is given no byte or record cap. *)
Definition is_full (kind : entity) (processing_counter : counter) : M t bool :=
  do self <- get;
  ret (bool_decide (ways_batch_size self <= pending kind self)
       || bool_decide (count processing_counter kind = count (entities_number self) kind)).

(** Modelled from the spec: the content of [WriteSortedOsmFile], by
    simplified id. *)
Definition get_batches_values_sorted_lists
  : M t (list (Z * Node) * list (Z * Way) * list (Z * Relation)) :=
  do self <- get;
  ret (merge_sort by_simplified_id (nodes_batch self),
       merge_sort by_simplified_id (ways_batch self),
       merge_sort by_simplified_id (relations_batch self)).

(** Modelled from the spec: [GetTargetSimplifiedIds(way)]. *)
Definition get_ways_simplified_ids : M t (list Z) :=
  do self <- get; ret ((ways_batch self).*1).

(** Modelled from the spec: [GetTargetSimplifiedIds(relation)]. *)
Definition get_main_relations_simplified_ids : M t (list Z) :=
  do self <- get; ret ((main_relations self).*1).

(** Modelled from the spec: the geometry the builder returned for a
    simplified id; an id missing from the map has none. *)
Definition geometry_of (id_geometry_map : list (Z * string)) (sid : Z) : option string :=
  (fun found => found.2.2) <$> list_find (fun p => p.1 = sid) id_geometry_map.

(** Modelled from the spec: [Restore] gives every main way, under its
    original id, with its geometry; the caller's function is then applied
    to each. *)
Definition restore_ways_ids_and_add_geometry (id_geometry_map : list (Z * string))
  : M t (list (Way * option string)) :=
  do self <- get;
  ret ((fun p => (p.2, geometry_of id_geometry_map p.1)) <$> ways_batch self).

(** Modelled from the spec: [Restore] for the main relations. *)
Definition restore_relations_ids_and_add_geometry (id_geometry_map : list (Z * string))
  : M t (list (Relation * option string)) :=
  do self <- get;
  ret ((fun p => (p.2, geometry_of id_geometry_map p.1)) <$> main_relations self).

End BatchManager.

(** ** Emitted JSON-lines records *)

(** [{"type": "Point", "coordinates": [lon, lat]}] *)
Inductive geometry := Point (coordinates : list Z).

(** [str(v)] of a Python value [v], kept as the value it is the text of. *)
Inductive text (A : Type) := str (v : A).
Arguments str {A} v.

(** One line of an output file: the record of a version with the geometry
    it was given. *)
Inductive json_line :=
  | node_line (x : Node) (geometry : text (option geometry))
  | way_line (x : Way) (geometry : option string)
  | relation_line (x : Relation) (geometry : option string).

(** [entities_out_files_dict]: the lines written to each file so far. *)
Record out_files := {
  nodes_jsonl : list json_line;
  ways_jsonl : list json_line;
  relations_jsonl : list json_line }.

Definition create_output_files : out_files :=
  {| nodes_jsonl := []; ways_jsonl := []; relations_jsonl := [] |}.

Definition lines (files : out_files) (e : entity) : list json_line :=
  match e with
  | nodes => nodes_jsonl files
  | ways => ways_jsonl files
  | relations => relations_jsonl files
  end.

(** [files[e].write(line)] *)
Definition write (e : entity) (line : json_line) (files : out_files) : out_files :=
  match e with
  | nodes => {| nodes_jsonl := nodes_jsonl files ++ [line];
                ways_jsonl := ways_jsonl files;
                relations_jsonl := relations_jsonl files |}
  | ways => {| nodes_jsonl := nodes_jsonl files;
               ways_jsonl := ways_jsonl files ++ [line];
               relations_jsonl := relations_jsonl files |}
  | relations => {| nodes_jsonl := nodes_jsonl files;
                    ways_jsonl := ways_jsonl files;
                    relations_jsonl := relations_jsonl files ++ [line] |}
  end.

(** Modelled from the spec: [osm_obj_transformer] is not part of [main.py].
    An index record is the version it was made from (section 3), so a node
    dict has a location exactly when the version has one, and the node
    list of a way dict is the way's. *)
Definition is_node_dict_with_location (node_dict : Node) : bool :=
  bool_decide (is_Some (node_location node_dict)).

(** Modelled from the spec: [osm_obj_transformer.get_way_nodes], the
    ordered node ids of a way record (section 3). *)
Definition get_way_nodes (way_dict : Way) : list Z := way_nodes way_dict.

(** ** [class HistoryHandler(OsmHandler)]: the resolution pass *)

(** What the handler asks of its surroundings, in order: the shard
    function, the index stores, the temporary OSM file and the geometry
    builder.  The log is not program state; it records the calls. *)
Inductive event :=
  | ShardComputed (obj_id shard : Z)
  | NodeLookup (store : db_path) (node_id ts : Z)
  | WayLookup (store : db_path) (way_id ts : Z)
  | OsmFileWritten (kind : entity) (current_index : Z) (content : osm_file)
  | GeometryBuilt (kind : entity) (target_ids : list Z).

(** [for x in xs: acc = body(acc, x)] *)
Fixpoint for_fold {S A B} (xs : list A) (acc : B) (body : B -> A -> M S B) : M S B :=
  match xs with
  | [] => ret acc
  | x :: xs' => do acc' <- body acc x; for_fold xs' acc' body
  end.

Module HistoryHandler.

Record t := {
  base : OsmHandler.t;
  osm_indexer_map : gmap Z SQLiteOsmIndex;
  num_shards : Z;
  entities_out_files_dict : out_files;
  batch_manager : BatchManager.t;
  calls : list event }.

(** [HistoryHandler.__init__] with the default [logging_range_count] and
    [ways_batch_size]. *)
Definition init (osm_indexer_map : gmap Z SQLiteOsmIndex) (num_shards : Z)
    (files_dict : out_files) (processing_counter entities_number : counter) : t :=
  {| base := OsmHandler.init processing_counter 100000 1 0;
     osm_indexer_map := osm_indexer_map;
     num_shards := num_shards;
     entities_out_files_dict := files_dict;
     batch_manager := BatchManager.init 5000 entities_number;
     calls := [] |}.

Definition set_base (b : OsmHandler.t) (self : t) : t :=
  {| base := b; osm_indexer_map := osm_indexer_map self;
     num_shards := num_shards self;
     entities_out_files_dict := entities_out_files_dict self;
     batch_manager := batch_manager self; calls := calls self |}.

Definition set_entities_out_files_dict (files : out_files) (self : t) : t :=
  {| base := base self; osm_indexer_map := osm_indexer_map self;
     num_shards := num_shards self;
     entities_out_files_dict := files;
     batch_manager := batch_manager self; calls := calls self |}.

Definition set_batch_manager (b : BatchManager.t) (self : t) : t :=
  {| base := base self; osm_indexer_map := osm_indexer_map self;
     num_shards := num_shards self;
     entities_out_files_dict := entities_out_files_dict self;
     batch_manager := b; calls := calls self |}.

(** The handler with further calls on its log. *)
Definition with_calls (evs : list event) (self : t) : t :=
  {| base := base self; osm_indexer_map := osm_indexer_map self;
     num_shards := num_shards self;
     entities_out_files_dict := entities_out_files_dict self;
     batch_manager := batch_manager self; calls := calls self ++ evs |}.

Definition record_call (e : event) : M t unit := modify (with_calls [e]).

Definition inherited {A} (m : M OsmHandler.t A) : M t A :=
  fun self => match m (base self) with
              | Ok (a, b) => Ok (a, set_base b self)
              | Raise e => Raise e
              end.

(** A method of [self.batch_manager]. *)
Definition on_batch_manager {A} (m : M BatchManager.t A) : M t A :=
  fun self => match m (batch_manager self) with
              | Ok (a, b) => Ok (a, set_batch_manager b self)
              | Raise e => Raise e
              end.

(** [self.current_entity_type] as a key of the dicts indexed by kind. *)
Definition current_kind : M t entity :=
  do self <- get;
  match OsmHandler.current_entity_type (base self) with
  | None => raise EntityKeyError
  | Some e => ret e
  end.

Definition get_osm_indexer_by_id `{External} (obj_id : Z) : M t SQLiteOsmIndex :=
  do self <- get;
  if decide (size (osm_indexer_map self) = 1%nat) then
    match osm_indexer_map self !! 0 with
    | Some indexer => ret indexer
    | None => raise (KeyError 0)
    end
  else
    do shard <- get_uniformly_shard_index_from_id obj_id (num_shards self);
    do _ <- record_call (ShardComputed obj_id shard);
    match osm_indexer_map self !! shard with
    | Some indexer => ret indexer
    | None => raise (KeyError shard)
    end.

Definition write_out_to_jsonl (entity_type : entity) (entity_dict : json_line) : M t unit :=
  modify (fun self =>
    set_entities_out_files_dict
      (write entity_type entity_dict (entities_out_files_dict self)) self).

Definition node (x : Node) : M t unit :=
  do _ <- inherited (OsmHandler.node x);
  let node_geometry :=
    match node_location x with
    | Some location => Some (Point [lon location; lat location])
    | None => None
    end in
  let node_dict := node_line x (str node_geometry) in
  do kind <- current_kind;
  write_out_to_jsonl kind node_dict.

(** The two keyword arguments are the list and the dict the caller wants
    extended; the updated pair is returned. *)
Definition append_node_dict_by_id_and_timestamp `{External} (node_id timestamp : Z)
    (nodes_list : option (list Node)) (nodes_map : option (dict Node))
  : M t (option (list Node) * option (dict Node)) :=
  do indexer <- get_osm_indexer_by_id node_id;
  do _ <- record_call (NodeLookup (db_file_path indexer) node_id timestamp);
  match get_node_from_index_by_timestamp indexer node_id timestamp with
  | Some node_dict =>
      if is_node_dict_with_location node_dict then
        match nodes_list, nodes_map with
        | Some l, _ => ret (Some (l ++ [node_dict]), nodes_map)
        | None, Some m => ret (None, Some (dict_set node_id node_dict m))
        | None, None => ret (None, None)
        end
      else ret (nodes_list, nodes_map)
  | None => ret (nodes_list, nodes_map)
  end.

Definition get_way_and_its_dependencies_as_dict `{External} (way : Way)
  : M t (Way * list Node) :=
  let way_dict := way in
  let way_timestamp := way_timestamp way in
  do way_nodes <- for_fold (way_nodes way) [] (fun way_nodes node =>
      do (nodes_list, _) <-
         append_node_dict_by_id_and_timestamp node way_timestamp (Some way_nodes) None;
      ret (default way_nodes nodes_list));
  ret (way_dict, way_nodes).

(** Ways first, then nodes, then relations. *)
Definition sort_and_write_to_osm_file (kind : entity) (current_index : Z) : M t osm_file :=
  do (nodes', ways', relations') <-
     on_batch_manager BatchManager.get_batches_values_sorted_lists;
  let content := {| file_ways := ways'; file_nodes := nodes'; file_relations := relations' |} in
  do _ <- record_call (OsmFileWritten kind current_index content);
  ret content.

Definition way `{External} (x : Way) : M t unit :=
  do _ <- inherited (OsmHandler.way x);
  do (way_dict, way_nodes_dicts) <- get_way_and_its_dependencies_as_dict x;
  do (way_dict', way_nodes_dicts') <-
     on_batch_manager
       (BatchManager.replace_ids_in_way_and_its_dependencies way_dict way_nodes_dicts);
  do _ <- on_batch_manager
            (BatchManager.add_osm_dicts_to_batches way_nodes_dicts' [way_dict'] [] None);
  do kind <- current_kind;
  do self <- get;
  do full <- on_batch_manager
               (BatchManager.is_full kind (OsmHandler.processing_counter (base self)));
  if full then
    do temp_osm_file <-
       sort_and_write_to_osm_file kind (count (OsmHandler.processing_counter (base self)) kind);
    do target_ids <- on_batch_manager BatchManager.get_ways_simplified_ids;
    do _ <- record_call (GeometryBuilt kind target_ids);
    let id_geometry_map := osm_to_geojson temp_osm_file kind target_ids in
    do restored <- on_batch_manager
                     (BatchManager.restore_ways_ids_and_add_geometry id_geometry_map);
    do _ <- for_each restored (fun restored_way_dict =>
              write_out_to_jsonl kind
                (way_line restored_way_dict.1 restored_way_dict.2));
    on_batch_manager BatchManager.reset
  else ret tt.

Definition append_relation_dependency_objects_dicts `{External}
    (member_id : Z) (member_type : member_type) (relation_timestamp : Z)
    (relation_nodes_map : dict Node) (relation_ways_map : dict Way)
    (relation_relations_map : dict Relation)
  : M t (dict Node * dict Way * dict Relation) :=
  match member_type with
  | type_n =>
      if negb (dict_mem member_id relation_nodes_map) then
        do (_, nodes_map) <-
           append_node_dict_by_id_and_timestamp member_id relation_timestamp
             None (Some relation_nodes_map);
        ret (default relation_nodes_map nodes_map, relation_ways_map, relation_relations_map)
      else ret (relation_nodes_map, relation_ways_map, relation_relations_map)
  | type_w =>
      if negb (dict_mem member_id relation_ways_map) then
        do indexer <- get_osm_indexer_by_id member_id;
        do _ <- record_call (WayLookup (db_file_path indexer) member_id relation_timestamp);
        match get_way_from_index_by_timestamp indexer member_id relation_timestamp with
        | Some way_dict =>
            let relation_ways_map := dict_set member_id way_dict relation_ways_map in
            do relation_nodes_map <-
               for_fold (get_way_nodes way_dict) relation_nodes_map
                 (fun relation_nodes_map way_node_id =>
                    do (_, nodes_map) <-
                       append_node_dict_by_id_and_timestamp way_node_id relation_timestamp
                         None (Some relation_nodes_map);
                    ret (default relation_nodes_map nodes_map));
            ret (relation_nodes_map, relation_ways_map, relation_relations_map)
        | None => ret (relation_nodes_map, relation_ways_map, relation_relations_map)
        end
      else ret (relation_nodes_map, relation_ways_map, relation_relations_map)
  | type_r => ret (relation_nodes_map, relation_ways_map, relation_relations_map)
  end.

Definition get_relation_and_its_dependencies_as_dict `{External} (relation : Relation)
  : M t (Relation * list Node * list Way * list Relation) :=
  let relation_dict := relation in
  let relation_timestamp := relation_timestamp relation in
  do (relation_nodes_map, relation_ways_map, relation_relations_map) <-
     for_fold (members relation) ([], [], [])
       (fun maps member =>
          append_relation_dependency_objects_dicts (ref member) (type member)
            relation_timestamp maps.1.1 maps.1.2 maps.2);
  ret (relation_dict, dict_values relation_nodes_map, dict_values relation_ways_map,
       dict_values relation_relations_map).

(** The loop of lines 290-294, with its [break]. *)
Fixpoint has_relation (members : list Member) : bool :=
  match members with
  | [] => false
  | member :: rest => if decide (type member = type_r) then true else has_relation rest
  end.

Definition relation `{External} (x : Relation) : M t unit :=
  do _ <- inherited (OsmHandler.relation x);
  if has_relation (members x) then
    do (relation_dict, relation_nodes, relation_ways, relation_relations) <-
       get_relation_and_its_dependencies_as_dict x;
    do (relation_dict', relation_nodes', relation_ways', relation_relations') <-
       on_batch_manager
         (BatchManager.replace_ids_in_relation_and_its_dependencies
            relation_dict relation_nodes relation_ways relation_relations);
    do _ <- on_batch_manager
              (BatchManager.add_osm_dicts_to_batches relation_nodes' relation_ways'
                 relation_relations' (Some relation_dict'));
    do kind <- current_kind;
    do self <- get;
    do full <- on_batch_manager
                 (BatchManager.is_full kind (OsmHandler.processing_counter (base self)));
    if full then
      do temp_osm_file <-
         sort_and_write_to_osm_file kind
           (count (OsmHandler.processing_counter (base self)) kind);
      do target_ids <- on_batch_manager BatchManager.get_main_relations_simplified_ids;
      do _ <- record_call (GeometryBuilt kind target_ids);
      let id_geometry_map := osm_to_geojson temp_osm_file kind target_ids in
      do restored <- on_batch_manager
                       (BatchManager.restore_relations_ids_and_add_geometry id_geometry_map);
      do _ <- for_each restored (fun restored_relation_dict =>
                write_out_to_jsonl kind
                  (relation_line restored_relation_dict.1 restored_relation_dict.2));
      on_batch_manager BatchManager.reset
    else ret tt
  else ret tt.

Definition callback `{External} (o : osm_object) : M t unit :=
  match o with
  | ONode x => node x
  | OWay x => way x
  | ORelation x => relation x
  end.

Definition apply_file `{External} (file : list osm_object) : M t unit :=
  for_each file callback.

End HistoryHandler.

(** ** The main program: lines 530-561 *)

#[global] Instance by_shard_index_dec (a b : Z * SQLiteOsmIndex) : Decision (a.1 <= b.1).
Proof. apply _. Defined.

(** [list(dbs.values())]: the workers' maps were joined in worker order,
    each in shard order. *)
Definition values_in_shard_order (dbs : gmap Z SQLiteOsmIndex) : list SQLiteOsmIndex :=
  (merge_sort (fun a b => a.1 <= b.1) (map_to_list dbs)).*2.

Definition merge_if_db_needed_and_upload_to_gcs (dbs : gmap Z SQLiteOsmIndex)
    (merge_db_shards : bool) : gmap Z SQLiteOsmIndex :=
  if merge_db_shards then {[ 0 := merge_dbs (values_in_shard_order dbs) ]}
  else dbs.

(** The run from the start-up checks to the closing of the output files;
    the result is the resolution handler as it stands when the files are
    closed. *)
Definition main `{External} (file : list osm_object) (num_threads num_db_shards : Z)
    (merge_db_shards use_id_hash_partitioned_shards : bool) : result HistoryHandler.t :=
  match startup num_threads num_db_shards with
  | Raise e => Raise e
  | Ok num_db_shards =>
      match run_create_osm_index_in_parallel file num_threads num_db_shards
              use_id_hash_partitioned_shards with
      | Raise e => Raise e
      | Ok (dbs, indexing_processing_counter) =>
          let entities_out_files_dict := create_output_files in
          let dbs := merge_if_db_needed_and_upload_to_gcs dbs merge_db_shards in
          let history_handler :=
            HistoryHandler.init dbs num_db_shards entities_out_files_dict
              create_processing_counter indexing_processing_counter in
          match HistoryHandler.apply_file file history_handler with
          | Raise e => Raise e
          | Ok (_, history_handler) => Ok history_handler
          end
      end
  end.

(** ** File names and URIs: lines 399-424

    Python's [str] operations the three helpers use, on [string]. *)

(** [sep in s] *)
Fixpoint py_in (sep s : string) : bool :=
  String.prefix sep s ||
  match s with
  | EmptyString => false
  | String _ s' => py_in sep s'
  end.

(** [s.split(sep)] for a separator that is not empty (the program splits
    on constants): the pieces between the occurrences of [sep] found from
    left to right, without overlap.  [skip] counts the characters of a
    separator just found that are still to be passed over. *)
Fixpoint split_from (sep : string) (skip : nat) (s : string) : list string :=
  match s with
  | EmptyString => [EmptyString]
  | String c s' =>
      match skip with
      | S k => split_from sep k s'
      | O =>
          if String.prefix sep s
          then EmptyString :: split_from sep (String.length sep - 1) s'
          else match split_from sep 0 s' with
               | piece :: pieces => String c piece :: pieces
               | [] => [String c EmptyString]
               end
      end
  end.

Definition py_split (sep s : string) : list string := split_from sep 0 s.

(** [s.index(sep)]: the position of the first occurrence; [None] stands
    for the [ValueError] of a missing one. *)
Fixpoint py_index (sep s : string) : option nat :=
  if String.prefix sep s then Some 0%nat
  else match s with
       | EmptyString => None
       | String _ s' => S <$> py_index sep s'
       end.

(** A slice bound [i] of a sequence of length [len]: a negative bound
    counts from the end, and every bound is clamped to [0..len]. *)
Definition slice_bound (len i : Z) : Z :=
  if decide (i < 0) then Z.max (len + i) 0 else Z.min i len.

(** [s[:stop]] *)
Definition slice_to (s : string) (stop : Z) : string :=
  String.substring 0 (Z.to_nat (slice_bound (Z.of_nat (String.length s)) stop)) s.

(** [s[start:]] *)
Definition slice_from (s : string) (start : Z) : string :=
  let len := Z.of_nat (String.length s) in
  let first := slice_bound len start in
  String.substring (Z.to_nat first) (Z.to_nat (len - first)) s.

(** [parse_uri_to_bucket_and_filename]: lines 399-410 *)
Definition parse_uri_to_bucket_and_filename (file_path : string) : result (string * string) :=
  let path_parts := py_split "//" file_path in
  match path_parts with
  | _ :: main_part :: _ =>                    (* [len(path_parts) >= 2] *)
      if py_in "/" main_part then
        match py_index "/" main_part with
        | None => Raise ValueError
        | Some divide_index =>
            let divide_index := Z.of_nat divide_index in
            let bucket_name := slice_to main_part divide_index in
            let file_name :=
              slice_from main_part
                (divide_index + 1 - Z.of_nat (String.length main_part)) in
            Ok (bucket_name, file_name)
        end
      else Ok (EmptyString, EmptyString)
  | _ => Ok (EmptyString, EmptyString)
  end.

(** [file_name_from_path]: lines 413-417.  [split] never returns an empty
    list, so [[-1]] always finds a last piece. *)
Definition file_name_from_path (file_path : string) : string :=
  if py_in "/" file_path then default EmptyString (last (py_split "/" file_path))
  else file_path.

(** [file_name_without_ext]: lines 420-424 *)
Definition file_name_without_ext (file_name : string) : string :=
  if py_in "." file_name then default EmptyString (head (py_split "." file_name))
  else file_name.

(** The names of the store files: lines 451 and 491.  [str.format] writes
    an integer in decimal, with a minus sign when it is negative. *)
Definition index_db_file_path (dest_local_file_path : string) (shard_index : Z) : string :=
  file_name_without_ext dest_local_file_path
  +:+ "_" +:+ pretty shard_index +:+ ".sqlite.db".

Definition merged_index_db_file_path (dest_local_file_path : string) : string :=
  file_name_without_ext dest_local_file_path +:+ ".sqlite.db".

(** The file behind a store of the model. *)
Definition db_file_name (dest_local_file_path : string) (path : db_path) : string :=
  match path with
  | ShardDb shard_index => index_db_file_path dest_local_file_path shard_index
  | MergedDb => merged_index_db_file_path dest_local_file_path
  end.

(** The local copy of the source file: lines 539-540 *)
Definition dest_local_file_path (data_dir src_name : string) : string :=
  data_dir +:+ file_name_from_path src_name.

(** * Properties *)

(** ** Vocabulary of the statements *)

Module IC := IndexCreator.
Module HH := HistoryHandler.
Module BM := BatchManager.

Ltac method_unfold :=
  unfold bind, ret, raise, get, put, modify, py_mod in *.

(** The handler after the inherited callback of kind [e]: the kind is
    current and its counter is one higher. *)
Definition counted (e : entity) (b : OsmHandler.t) : OsmHandler.t :=
  OsmHandler.set_processing_counter
    (set_count (OsmHandler.processing_counter b) e
       (count (OsmHandler.processing_counter b) e + 1))
    (OsmHandler.set_current_entity_type e b).

(** *** Indexing pass *)

(** The settings under which no callback of the indexing pass divides by
    zero. *)
Definition well_configured (self : IC.t) : Prop :=
  OsmHandler.logging_range_count (IC.base self) <> 0 /\
  IC.num_shards self <> 0 /\
  IC.batch_size_to_commit self <> 0.

(** The shard slot the worker computes for a record, which it does after
    counting the record. *)
Definition slot `{External} (self : IC.t) (o : osm_object) : Z :=
  if IC.is_id_hash_partitioned_shards self
  then stable_hash (osm_id o) mod IC.num_shards self
  else (count (OsmHandler.processing_counter (IC.base self)) (entity_of o) + 1)
         mod IC.num_shards self.

(** Counting the record brings the counter of its kind to a multiple of
    [batch_size_to_commit]. *)
Definition due (self : IC.t) (o : osm_object) : bool :=
  bool_decide ((count (OsmHandler.processing_counter (IC.base self)) (entity_of o) + 1)
                 mod IC.batch_size_to_commit self = 0).

(** One record: counted; stored when its slot is owned, and then every
    owned store is committed when the counter is due. *)
Definition step `{External} (o : osm_object) (self : IC.t) : IC.t :=
  let self1 := IC.set_base (counted (entity_of o) (IC.base self)) self in
  if decide (is_Some (IC.osm_indexer_map self !! slot self o)) then
    let stored := alter (put_row o) (slot self o) (IC.osm_indexer_map self) in
    IC.set_osm_indexer_map (if due self o then save <$> stored else stored) self1
  else self1.

(** The rows the stores of a worker hold that no commit has covered yet. *)
Definition uncommitted (m : gmap Z SQLiteOsmIndex) : nat :=
  map_fold (fun _ indexer acc => (length (buffered indexer) + acc)%nat) 0%nat m.

(** How far the counters of the three kinds are past their last multiple
    of [B]. *)
Definition residue (B : Z) (c : counter) : Z :=
  count c nodes mod B + count c ways mod B + count c relations mod B.

(** Every slot the router can produce is held by the worker. *)
Definition owns_all (self : IC.t) : Prop :=
  forall b, 0 <= b < IC.num_shards self -> is_Some (IC.osm_indexer_map self !! b).

(** *** Resolution pass *)

Abbreviation with_calls := HH.with_calls.

(** The store [get_osm_indexer_by_id] hands out for an id, if it does. *)
Definition selected `{External} (self : HH.t) (obj_id : Z) : option SQLiteOsmIndex :=
  match HH.get_osm_indexer_by_id obj_id self with
  | Ok (indexer, _) => Some indexer
  | Raise _ => None
  end.

(** The calls of the shard function made on the way to that store. *)
Definition shard_calls `{External} (self : HH.t) (obj_id : Z) : list event :=
  if decide (size (HH.osm_indexer_map self) = 1%nat) then []
  else [ShardComputed obj_id (stable_hash obj_id mod HH.num_shards self)].

(** [GetAsOf(Node, n, ts)] on the store selected for [n], kept when it
    carries a location. *)
Definition located_node_as_of `{External} (self : HH.t) (ts node_id' : Z) : option Node :=
  indexer ← selected self node_id';
  node_dict ← get_node_from_index_by_timestamp indexer node_id' ts;
  if is_node_dict_with_location node_dict then Some node_dict else None.

Definition node_calls `{External} (self : HH.t) (ts node_id' : Z) : list event :=
  match selected self node_id' with
  | Some indexer => shard_calls self node_id' ++ [NodeLookup (db_file_path indexer) node_id' ts]
  | None => []
  end.

(** [GetAsOf(Way, id, ts)] on the store selected for the id. *)
Definition way_as_of `{External} (self : HH.t) (ts way_id' : Z) : option Way :=
  indexer ← selected self way_id';
  get_way_from_index_by_timestamp indexer way_id' ts.

Definition way_calls `{External} (self : HH.t) (ts way_id' : Z) : list event :=
  match selected self way_id' with
  | Some indexer => shard_calls self way_id' ++ [WayLookup (db_file_path indexer) way_id' ts]
  | None => []
  end.

(** A node fetched into the dict of a relation's node dependencies. *)
Definition fetch_node `{External} (self : HH.t) (ts : Z) (nodes_map : dict Node)
    (node_id' : Z) : dict Node :=
  match located_node_as_of self ts node_id' with
  | Some node_dict => dict_set node_id' node_dict nodes_map
  | None => nodes_map
  end.

(** A call is a lookup of the index as of [ts], or the shard function. *)
Definition as_of_call (ts : Z) (e : event) : Prop :=
  match e with
  | ShardComputed _ _ => True
  | NodeLookup _ _ ts' | WayLookup _ _ ts' => ts' = ts
  | _ => False
  end.

Arguments HH.with_calls : simpl never.





(** *** Sample records *)

Definition node_at (node_id' ts : Z) (visible : bool) (location : option Location) : Node :=
  {| node_id := node_id'; node_version := 1; node_timestamp := ts;
     node_visible := visible; node_location := location |}.

Definition way_at (way_id' ts : Z) (refs : list Z) : Way :=
  {| way_id := way_id'; way_version := 1; way_timestamp := ts;
     way_visible := true; way_nodes := refs |}.

Definition relation_at (relation_id' ts : Z) (ms : list Member) : Relation :=
  {| relation_id := relation_id'; relation_version := 1; relation_timestamp := ts;
     relation_visible := true; members := ms |}.

(** Two versions of node 7. *)
Definition node_7_first : Node := node_at 7 10 true (Some {| lon := 0; lat := 0 |}).
Definition node_7_moved : Node := node_at 7 20 true (Some {| lon := 5; lat := 5 |}).

(** A relation of a relation, and a relation of a way. *)
Definition relation_200 : Relation :=
  relation_at 200 30 [{| ref := 100; type := type_r; role := "sub" |}].
Definition relation_300 : Relation :=
  relation_at 300 31 [{| ref := 9; type := type_w; role := "outer" |}].


(** *** Worked inputs *)

(** Collaborators for the worked inputs: the identity as hash, and a
    builder that answers every requested id. *)
Definition sample_collaborators : External :=
  {| stable_hash := fun obj_id => obj_id;
     osm_to_geojson := fun _ _ target_ids => (fun sid => (sid, "LineString"%string)) <$> target_ids |}.

Definition node_1_first : Node := node_at 1 10 true (Some {| lon := 0; lat := 0 |}).
Definition node_1_moved : Node := node_at 1 30 true (Some {| lon := 5; lat := 5 |}).
Definition node_2 : Node := node_at 2 10 true (Some {| lon := 1; lat := 0 |}).
Definition way_9 : Way := way_at 9 20 [1; 2].
Definition way_9_later : Way := way_at 9 40 [1; 2].

Definition history : list osm_object :=
  [ONode node_1_first; ONode node_1_moved; ONode node_2; OWay way_9; OWay way_9_later;
   ORelation relation_300].

(** The stores two hash-partitioned shards hold after the indexing pass of
    [history]. *)
Definition even_store : SQLiteOsmIndex :=
  {| db_file_path := ShardDb 0; node_rows := [node_2]; way_rows := [];
     relation_rows := [relation_300]; buffered := [] |}.
Definition odd_store : SQLiteOsmIndex :=
  {| db_file_path := ShardDb 1; node_rows := [node_1_first; node_1_moved];
     way_rows := [way_9; way_9_later]; relation_rows := []; buffered := [] |}.

Definition sharded_handler : HH.t :=
  HH.init {[ 0 := even_store; 1 := odd_store ]} 2 create_output_files
    create_processing_counter {| c_nodes := 3; c_ways := 2; c_relations := 1 |}.

Definition merged_handler : HH.t :=
  HH.init {[ 0 := merge_dbs [even_store; odd_store] ]} 2 create_output_files
    create_processing_counter {| c_nodes := 3; c_ways := 2; c_relations := 1 |}.

(** A sole worker over one shard that commits every second record of a
    kind. *)
Definition small_batch_worker : IC.t :=
  {| IC.base := OsmHandler.init create_processing_counter 1000000 1 0;
     IC.osm_indexer_map := created_indexers 0 1;
     IC.num_shards := 1;
     IC.batch_size_to_commit := 2;
     IC.is_id_hash_partitioned_shards := false |}.

(** *** The indexing pass as a function of the stream *)

(** The counter after a record has been counted. *)
Definition count_record (c : counter) (o : osm_object) : counter :=
  set_count c (entity_of o) (count c (entity_of o) + 1).

(** The counter after a whole stream. *)
Definition tally (c : counter) (file : list osm_object) : counter :=
  foldl count_record c file.

(** The slot of a record counted as [c]: the hash of its id, or the
    counter of its kind, modulo the number of shards. *)
Definition slot_of `{External} (hash : bool) (S : Z) (c : counter) (o : osm_object) : Z :=
  if hash then stable_hash (osm_id o) mod S
  else count (count_record c o) (entity_of o) mod S.

(** The records of a stream that are routed to slot [s], in stream order,
    for a worker whose counter stands at [c] before the stream. *)
Fixpoint routed `{External} (hash : bool) (S : Z) (c : counter)
    (file : list osm_object) (s : Z) : list osm_object :=
  match file with
  | [] => []
  | o :: rest =>
      (if decide (slot_of hash S c o = s) then [o] else [])
      ++ routed hash S (count_record c o) rest s
  end.

(** The closed store of slot [s] after the indexing pass of a stream. *)
Definition shard_store `{External} (hash : bool) (S : Z) (file : list osm_object)
    (s : Z) : SQLiteOsmIndex :=
  {| db_file_path := ShardDb s;
     node_rows := rows_of_nodes (routed hash S create_processing_counter file s);
     way_rows := rows_of_ways (routed hash S create_processing_counter file s);
     relation_rows := rows_of_relations (routed hash S create_processing_counter file s);
     buffered := [] |}.

(** What a store holds of each kind, committed or not. *)
Definition nodes_held (ix : SQLiteOsmIndex) : list Node :=
  node_rows ix ++ rows_of_nodes (buffered ix).
Definition ways_held (ix : SQLiteOsmIndex) : list Way :=
  way_rows ix ++ rows_of_ways (buffered ix).
Definition relations_held (ix : SQLiteOsmIndex) : list Relation :=
  relation_rows ix ++ rows_of_relations (buffered ix).

(** *** The resolution pass over a whole stream *)




(** *** Workers of one pool *)

(** The handler of the worker with another index, everything else equal. *)
Definition with_pool_index (index : Z) (self : OsmHandler.t) : OsmHandler.t :=
  {| OsmHandler.processing_counter := OsmHandler.processing_counter self;
     OsmHandler.current_entity_type := OsmHandler.current_entity_type self;
     OsmHandler.logging_range_count := OsmHandler.logging_range_count self;
     OsmHandler.pool_size := OsmHandler.pool_size self;
     OsmHandler.pool_index := index |}.



(** *** The dependency dicts of a relation *)

(** A dict whose keys are distinct and are the ids of its values. *)
Definition keyed {A} (ident : A -> Z) (d : dict A) : Prop :=
  NoDup d.*1 /\ Forall (fun p => ident p.2 = p.1) d.

(** A dict of nodes that all carry a location. *)
Definition located (d : dict Node) : Prop :=
  Forall (fun p => is_Some (node_location p.2)) d.

(** ** Lemmas and theorems *)

Section Properties.
Context `{External}.

Lemma log_processing_counted e b :
  OsmHandler.logging_range_count b <> 0 ->
  OsmHandler.log_processing (OsmHandler.set_current_entity_type e b) = Ok (tt, counted e b).
Proof.
  intros Hlog. unfold OsmHandler.log_processing, OsmHandler.current_count. method_unfold.
  cbn. rewrite decide_False by done. done.
Qed.

Lemma OsmHandler_node_counted x b :
  OsmHandler.logging_range_count b <> 0 ->
  OsmHandler.node x b = Ok (tt, counted nodes b).
Proof. intros. unfold OsmHandler.node. method_unfold. cbv beta iota. by apply log_processing_counted. Qed.

Lemma OsmHandler_way_counted x b :
  OsmHandler.logging_range_count b <> 0 ->
  OsmHandler.way x b = Ok (tt, counted ways b).
Proof. intros. unfold OsmHandler.way. method_unfold. cbv beta iota. by apply log_processing_counted. Qed.

Lemma OsmHandler_relation_counted x b :
  OsmHandler.logging_range_count b <> 0 ->
  OsmHandler.relation x b = Ok (tt, counted relations b).
Proof. intros. unfold OsmHandler.relation. method_unfold. cbv beta iota. by apply log_processing_counted. Qed.

Lemma count_set_count c e v : count (set_count c e v) e = v.
Proof. by destruct e. Qed.

Lemma count_set_count_ne c e e' v : e <> e' -> count (set_count c e v) e' = count c e'.
Proof. by destruct e, e'. Qed.

Lemma commit_if_needed_eq (self : IC.t) e :
  OsmHandler.current_entity_type (IC.base self) = Some e ->
  IC.batch_size_to_commit self <> 0 ->
  IC.commit_if_needed self =
  Ok (tt, if bool_decide (count (OsmHandler.processing_counter (IC.base self)) e
                          mod IC.batch_size_to_commit self = 0)
          then IC.set_osm_indexer_map (save <$> IC.osm_indexer_map self) self
          else self).
Proof.
  intros He Hb.
  unfold IC.commit_if_needed, IC.inherited, OsmHandler.current_count. method_unfold.
  rewrite He. cbn. rewrite decide_False by done. cbn.
  rewrite bool_decide_decide. destruct self. by case_decide.
Qed.

Lemma batch_index_eq o (self : IC.t) :
  IC.num_shards self <> 0 ->
  IC.batch_index o (IC.set_base (counted (entity_of o) (IC.base self)) self)
  = Ok (slot self o, IC.set_base (counted (entity_of o) (IC.base self)) self).
Proof.
  intros Hs. unfold IC.batch_index, slot, IC.inherited, OsmHandler.current_count,
    get_uniformly_shard_index_from_id. method_unfold. cbn.
  destruct (IC.is_id_hash_partitioned_shards self); cbn.
  - by rewrite decide_False by done.
  - rewrite decide_False by done. by rewrite count_set_count.
Qed.

Lemma process_osm_object_eq o (self : IC.t) :
  well_configured self ->
  IC.process_osm_object o (Some (entity_of o))
    (IC.set_base (counted (entity_of o) (IC.base self)) self)
  = Ok (tt, step o self).
Proof.
  intros (Hlog & Hs & Hb). unfold IC.process_osm_object.
  unfold bind at 1. rewrite batch_index_eq by done.
  unfold step. method_unfold. cbn [IC.osm_indexer_map IC.set_base].
  case_decide as Hown; [|done].
  destruct o as [x|x|x]; cbn [entity_of];
    repeat (first [rewrite decide_True by done | rewrite decide_False by done]);
    cbn [IC.process_node IC.process_way IC.process_relation];
    method_unfold;
    (erewrite commit_if_needed_eq; [| reflexivity | done]);
    cbn; rewrite ?count_set_count; unfold due; cbn;
    by destruct (bool_decide _).
Qed.

Lemma callback_step o self :
  well_configured self ->
  IC.callback o self = Ok (tt, step o self).
Proof.
  intros Hwc. pose proof Hwc as (Hlog & Hs & Hb).
  destruct o as [x|x|x]; cbn [IC.callback].
  - unfold IC.node, IC.inherited. method_unfold.
    rewrite OsmHandler_node_counted by done. cbv beta iota.
    by apply (process_osm_object_eq (ONode x)).
  - unfold IC.way, IC.inherited. method_unfold.
    rewrite OsmHandler_way_counted by done. cbv beta iota.
    by apply (process_osm_object_eq (OWay x)).
  - unfold IC.relation, IC.inherited. method_unfold.
    rewrite OsmHandler_relation_counted by done. cbv beta iota.
    by apply (process_osm_object_eq (ORelation x)).
Qed.

Lemma step_well_configured o self : well_configured self -> well_configured (step o self).
Proof. unfold well_configured, step. case_decide; done. Qed.

Lemma apply_file_steps file self :
  well_configured self ->
  IC.apply_file file self = Ok (tt, foldl (fun s o => step o s) self file).
Proof.
  unfold IC.apply_file. revert self.
  induction file as [|o file IH]; intros self Hwc; [done|].
  cbn [for_each foldl]. unfold bind. rewrite callback_step by done.
  apply IH. by apply step_well_configured.
Qed.

Lemma step_owned o self s :
  is_Some (IC.osm_indexer_map (step o self) !! s) <-> is_Some (IC.osm_indexer_map self !! s).
Proof.
  unfold step. case_decide; [|done]. cbn.
  destruct (due self o); rewrite ?lookup_fmap, ?fmap_is_Some, lookup_alter;
    case_decide; subst; by rewrite ?fmap_is_Some.
Qed.

Lemma steps_owned file self s :
  is_Some (IC.osm_indexer_map (foldl (fun s o => step o s) self file) !! s)
  <-> is_Some (IC.osm_indexer_map self !! s).
Proof.
  revert self. induction file as [|o file IH]; intros self; [done|].
  cbn [foldl]. rewrite IH. apply step_owned.
Qed.

Lemma uncommitted_insert (m : gmap Z SQLiteOsmIndex) i x :
  m !! i = None ->
  uncommitted (<[i:=x]> m) = (length (buffered x) + uncommitted m)%nat.
Proof. intros Hi. unfold uncommitted. rewrite map_fold_insert_L; [done| |done]. intros. lia. Qed.

Lemma uncommitted_alter (m : gmap Z SQLiteOsmIndex) i o :
  is_Some (m !! i) ->
  uncommitted (alter (put_row o) i m) = S (uncommitted m).
Proof.
  intros [x Hx].
  rewrite <- (insert_delete_id m i x Hx) at 1. rewrite alter_insert_eq.
  rewrite <- (insert_delete_id m i x Hx) at 2.
  rewrite !uncommitted_insert by apply lookup_delete_eq.
  cbn. rewrite length_app. cbn. lia.
Qed.

Lemma uncommitted_save (m : gmap Z SQLiteOsmIndex) : uncommitted (save <$> m) = 0%nat.
Proof.
  unfold uncommitted. rewrite map_fold_fmap.
  apply (map_fold_weak_ind (fun acc _ => acc = 0%nat)); [done|].
  intros i x m' acc _ ->. done.
Qed.

Lemma succ_mod x B : 0 < B -> (x + 1) mod B <> 0 -> (x + 1) mod B = x mod B + 1.
Proof.
  intros HB Hne. rewrite <- Z.add_mod_idemp_l in * by lia.
  pose proof (Z.mod_pos_bound x B HB).
  destruct (decide (x mod B + 1 = B)) as [Heq|Hlt].
  - rewrite Heq, Z.mod_same in Hne by lia. done.
  - rewrite Z.mod_small by lia. done.
Qed.

Lemma residue_nonneg B c : 0 < B -> 0 <= residue B c.
Proof.
  intros. unfold residue.
  pose proof (Z.mod_pos_bound (count c nodes) B).
  pose proof (Z.mod_pos_bound (count c ways) B).
  pose proof (Z.mod_pos_bound (count c relations) B). lia.
Qed.

Lemma residue_below B c : 0 < B -> residue B c <= 3 * (B - 1).
Proof.
  intros. unfold residue.
  pose proof (Z.mod_pos_bound (count c nodes) B).
  pose proof (Z.mod_pos_bound (count c ways) B).
  pose proof (Z.mod_pos_bound (count c relations) B). lia.
Qed.

Lemma residue_counted B c e :
  0 < B -> (count c e + 1) mod B <> 0 ->
  residue B (set_count c e (count c e + 1)) = residue B c + 1.
Proof.
  intros HB Hne. unfold residue.
  destruct e; cbn in *; rewrite succ_mod by done; lia.
Qed.

Lemma slot_in_range o self : 0 < IC.num_shards self -> 0 <= slot self o < IC.num_shards self.
Proof. intros. unfold slot. destruct (IC.is_id_hash_partitioned_shards self); by apply Z.mod_pos_bound. Qed.

Lemma step_owns_all o self : owns_all self -> owns_all (step o self).
Proof.
  unfold owns_all. intros Hall b Hb. apply step_owned. apply Hall.
  revert Hb. unfold step. by case_decide.
Qed.

Lemma step_uncommitted o self :
  0 < IC.num_shards self -> 0 < IC.batch_size_to_commit self -> owns_all self ->
  Z.of_nat (uncommitted (IC.osm_indexer_map self))
    <= residue (IC.batch_size_to_commit self) (OsmHandler.processing_counter (IC.base self)) ->
  Z.of_nat (uncommitted (IC.osm_indexer_map (step o self)))
    <= residue (IC.batch_size_to_commit (step o self))
         (OsmHandler.processing_counter (IC.base (step o self))).
Proof.
  intros HS HB Hall Hinv. unfold step.
  rewrite decide_True by (apply Hall; by apply slot_in_range). cbn.
  unfold due. case_bool_decide as Hdue.
  - rewrite uncommitted_save. by apply residue_nonneg.
  - rewrite uncommitted_alter by (apply Hall; by apply slot_in_range).
    rewrite residue_counted by done. lia.
Qed.

Lemma with_calls_nil self : with_calls [] self = self.
Proof. destruct self. unfold HH.with_calls. cbn. by rewrite app_nil_r. Qed.

Lemma with_calls_app e1 e2 self : with_calls e2 (with_calls e1 self) = with_calls (e1 ++ e2) self.
Proof. unfold HH.with_calls. cbn. by rewrite app_assoc. Qed.

Lemma get_osm_indexer_by_id_selected self obj_id indexer :
  selected self obj_id = Some indexer ->
  HH.get_osm_indexer_by_id obj_id self = Ok (indexer, with_calls (shard_calls self obj_id) self).
Proof.
  unfold selected, shard_calls, HH.get_osm_indexer_by_id, HH.record_call,
    get_uniformly_shard_index_from_id. method_unfold.
  case_decide.
  - destruct (HH.osm_indexer_map self !! 0); [|done].
    intros [= ->]. by rewrite with_calls_nil.
  - case_decide; [done|]. cbn.
    destruct (HH.osm_indexer_map self !! _); [|done]. by intros [= ->].
Qed.

Lemma selected_with_calls evs self obj_id :
  selected (with_calls evs self) obj_id = selected self obj_id.
Proof.
  unfold selected, HH.get_osm_indexer_by_id, HH.record_call,
    get_uniformly_shard_index_from_id, HH.with_calls. method_unfold. cbn.
  case_decide; [by destruct (_ !! 0)|].
  case_decide; [done|]. cbn. by destruct (_ !! _).
Qed.

Lemma shard_calls_with_calls evs self obj_id :
  shard_calls (with_calls evs self) obj_id = shard_calls self obj_id.
Proof. done. Qed.

Lemma append_to_list self node_id' ts l :
  is_Some (selected self node_id') ->
  HH.append_node_dict_by_id_and_timestamp node_id' ts (Some l) None self
  = Ok ((Some (l ++ option_list (located_node_as_of self ts node_id')), None),
        with_calls (node_calls self ts node_id') self).
Proof.
  intros [indexer Hsel]. unfold HH.append_node_dict_by_id_and_timestamp.
  unfold bind at 1. rewrite (get_osm_indexer_by_id_selected _ _ _ Hsel).
  unfold located_node_as_of, node_calls. rewrite Hsel. cbn.
  unfold HH.record_call. method_unfold. cbn.
  rewrite with_calls_app.
  destruct (get_node_from_index_by_timestamp indexer node_id' ts) as [d|]; cbn.
  - destruct (is_node_dict_with_location d); cbn; by rewrite ?app_nil_r.
  - by rewrite app_nil_r.
Qed.

Lemma omap_pointwise {A B} (f g : A -> option B) (l : list A) :
  (forall a, f a = g a) -> omap f l = omap g l.
Proof. intros Hfg. induction l as [|a l IH]; [done|]. cbn. by rewrite Hfg, IH. Qed.

Lemma bind_pointwise {A B} (f g : A -> list B) (l : list A) :
  (forall a, f a = g a) -> l ≫= f = l ≫= g.
Proof. intros Hfg. induction l as [|a l IH]; [done|]. cbn. by rewrite Hfg, IH. Qed.

Lemma located_node_as_of_with_calls evs self ts a :
  located_node_as_of (with_calls evs self) ts a = located_node_as_of self ts a.
Proof. unfold located_node_as_of. by rewrite selected_with_calls. Qed.

Lemma node_calls_with_calls evs self ts a :
  node_calls (with_calls evs self) ts a = node_calls self ts a.
Proof. unfold node_calls. by rewrite selected_with_calls. Qed.

Lemma way_nodes_loop self ts ns acc :
  (forall node, node ∈ ns -> is_Some (selected self node)) ->
  for_fold ns acc (fun way_nodes node =>
      do (nodes_list, _) <-
         HH.append_node_dict_by_id_and_timestamp node ts (Some way_nodes) None;
      ret (default way_nodes nodes_list)) self
  = Ok (acc ++ omap (located_node_as_of self ts) ns,
        with_calls (ns ≫= node_calls self ts) self).
Proof.
  revert self acc. induction ns as [|node ns IH]; intros self acc Hsel.
  - cbn. by rewrite app_nil_r, with_calls_nil.
  - cbn [for_fold]. unfold bind at 1. unfold bind at 1.
    rewrite append_to_list by (apply Hsel; left). cbn [default ret].
    rewrite IH.
    2:{ intros node' Hin. rewrite selected_with_calls. apply Hsel. by right. }
    rewrite with_calls_app.
    rewrite (omap_pointwise _ _ ns (located_node_as_of_with_calls _ self ts)).
    rewrite (bind_pointwise _ _ ns (node_calls_with_calls _ self ts)).
    cbn. rewrite <- app_assoc.
    by destruct (located_node_as_of self ts node).
Qed.

(** C4.  Resolving a way version, each node id of its node list is looked
    up, on the store selected for that id, as of the timestamp of the way
    version and no other; the dependency list is made of exactly the
    results that carry a location, in the order of the node list.  The log
    shows one node lookup per node id, each with the way's timestamp. *)
Theorem way_dependencies_as_of_way_timestamp (way : Way) (self : HH.t) :
  (forall node, node ∈ way_nodes way -> is_Some (selected self node)) ->
  HH.get_way_and_its_dependencies_as_dict way self
  = Ok ((way, omap (located_node_as_of self (way_timestamp way)) (way_nodes way)),
        with_calls (way_nodes way ≫= node_calls self (way_timestamp way)) self).
Proof.
  intros Hsel. unfold HH.get_way_and_its_dependencies_as_dict.
  unfold bind at 1. by rewrite way_nodes_loop.
Qed.

Lemma append_to_map self node_id' ts m :
  is_Some (selected self node_id') ->
  HH.append_node_dict_by_id_and_timestamp node_id' ts None (Some m) self
  = Ok ((None, Some (fetch_node self ts m node_id')),
        with_calls (node_calls self ts node_id') self).
Proof.
  intros [indexer Hsel]. unfold HH.append_node_dict_by_id_and_timestamp.
  unfold bind at 1. rewrite (get_osm_indexer_by_id_selected _ _ _ Hsel).
  unfold fetch_node, located_node_as_of, node_calls. rewrite Hsel. cbn.
  unfold HH.record_call. method_unfold. cbn.
  rewrite with_calls_app.
  destruct (get_node_from_index_by_timestamp indexer node_id' ts) as [d|]; cbn; [|done].
  by destruct (is_node_dict_with_location d).
Qed.

Lemma fetch_node_with_calls evs self ts m a :
  fetch_node (with_calls evs self) ts m a = fetch_node self ts m a.
Proof. unfold fetch_node. by rewrite located_node_as_of_with_calls. Qed.

Lemma foldl_pointwise {A B} (f g : B -> A -> B) (l : list A) b :
  (forall b a, f b a = g b a) -> foldl f b l = foldl g b l.
Proof. intros Hfg. revert b. induction l as [|a l IH]; intros b; [done|]. cbn. by rewrite Hfg, IH. Qed.

Lemma relation_way_nodes_loop self ts ns m :
  (forall node, is_Some (selected self node)) ->
  for_fold ns m (fun relation_nodes_map way_node_id =>
      do (_, nodes_map) <-
         HH.append_node_dict_by_id_and_timestamp way_node_id ts None (Some relation_nodes_map);
      ret (default relation_nodes_map nodes_map)) self
  = Ok (foldl (fetch_node self ts) m ns, with_calls (ns ≫= node_calls self ts) self).
Proof.
  revert self m. induction ns as [|node ns IH]; intros self m Hsel.
  - cbn. by rewrite with_calls_nil.
  - cbn [for_fold]. unfold bind at 1. unfold bind at 1.
    rewrite append_to_map by done. cbn [default ret].
    rewrite IH by (intros; by rewrite selected_with_calls).
    rewrite with_calls_app.
    rewrite (foldl_pointwise _ _ ns _ (fetch_node_with_calls _ self ts)).
    rewrite (bind_pointwise _ _ ns (node_calls_with_calls _ self ts)).
    done.
Qed.

Lemma way_member_dependencies self member_id ts nm wm (rm : dict Relation) :
  dict_mem member_id wm = false ->
  (forall obj_id, is_Some (selected self obj_id)) ->
  HH.append_relation_dependency_objects_dicts member_id type_w ts nm wm rm self
  = Ok (match way_as_of self ts member_id with
        | Some way_dict =>
            (foldl (fetch_node self ts) nm (way_nodes way_dict),
             dict_set member_id way_dict wm, rm)
        | None => (nm, wm, rm)
        end,
        with_calls
          (way_calls self ts member_id ++
           match way_as_of self ts member_id with
           | Some way_dict => way_nodes way_dict ≫= node_calls self ts
           | None => []
           end) self).
Proof.
  intros Hnew Hsel. cbn [HH.append_relation_dependency_objects_dicts].
  rewrite Hnew. cbn [negb].
  destruct (Hsel member_id) as [indexer Hix].
  unfold bind at 1. rewrite (get_osm_indexer_by_id_selected _ _ _ Hix).
  unfold way_as_of, way_calls. rewrite Hix. cbn [mbind option_bind].
  unfold HH.record_call. unfold bind at 1. unfold modify at 1.
  rewrite with_calls_app.
  destruct (get_way_from_index_by_timestamp indexer member_id ts) as [way_dict|].
  - unfold bind at 1. unfold get_way_nodes.
    rewrite relation_way_nodes_loop by (intros; by rewrite selected_with_calls).
    rewrite with_calls_app. unfold ret.
    rewrite (foldl_pointwise _ _ _ _ (fetch_node_with_calls _ self ts)).
    rewrite (bind_pointwise _ _ _ (node_calls_with_calls _ self ts)).
    done.
  - unfold ret. by rewrite app_nil_r.
Qed.


Lemma Forall_as_of_node_call self ts a : Forall (as_of_call ts) (node_calls self ts a).
Proof.
  unfold node_calls, shard_calls. destruct (selected self a); [|constructor].
  case_decide; repeat constructor.
Qed.

Lemma Forall_as_of_way_call self ts a : Forall (as_of_call ts) (way_calls self ts a).
Proof.
  unfold way_calls, shard_calls. destruct (selected self a); [|constructor].
  case_decide; repeat constructor.
Qed.

Lemma Forall_as_of_node_calls self ts (ns : list Z) :
  Forall (as_of_call ts) (ns ≫= node_calls self ts).
Proof.
  induction ns as [|a ns IH]; [constructor|]. cbn. apply Forall_app. split; [|done].
  apply Forall_as_of_node_call.
Qed.

Lemma member_step self member_id member_type ts nm wm (rm : dict Relation) :
  (forall obj_id, is_Some (selected self obj_id)) ->
  exists nm' wm' evs,
    HH.append_relation_dependency_objects_dicts member_id member_type ts nm wm rm self
    = Ok ((nm', wm', rm), with_calls evs self) /\ Forall (as_of_call ts) evs.
Proof.
  intros Hsel. destruct member_type.
  - cbn [HH.append_relation_dependency_objects_dicts].
    destruct (dict_mem member_id nm); cbn [negb].
    + exists nm, wm, []. by rewrite with_calls_nil.
    + unfold bind at 1. rewrite append_to_map by done. cbn.
      eexists _, _, _. split; [done|].
      apply Forall_as_of_node_call.
  - destruct (dict_mem member_id wm) eqn:Hmem.
    + cbn [HH.append_relation_dependency_objects_dicts]. rewrite Hmem. cbn.
      exists nm, wm, []. by rewrite with_calls_nil.
    + rewrite way_member_dependencies by done.
      destruct (way_as_of self ts member_id); eexists _, _, _; (split; [done|]);
        apply Forall_app; split;
        auto using Forall_as_of_way_call, Forall_as_of_node_calls, Forall_nil_2.
  - exists nm, wm, []. by rewrite with_calls_nil.
Qed.

Lemma members_loop self ts ms nm wm (rm : dict Relation) :
  (forall obj_id, is_Some (selected self obj_id)) ->
  exists nm' wm' evs,
    for_fold ms (nm, wm, rm) (fun maps member =>
        HH.append_relation_dependency_objects_dicts (ref member) (type member)
          ts maps.1.1 maps.1.2 maps.2) self
    = Ok ((nm', wm', rm), with_calls evs self) /\ Forall (as_of_call ts) evs.
Proof.
  revert self nm wm. induction ms as [|m ms IH]; intros self nm wm Hsel.
  - exists nm, wm, []. by rewrite with_calls_nil.
  - cbn [for_fold]. unfold bind at 1. cbn [fst snd].
    destruct (member_step self (ref m) (type m) ts nm wm rm Hsel)
      as (nm1 & wm1 & evs1 & -> & Hevs1).
    destruct (IH (with_calls evs1 self) nm1 wm1) as (nm2 & wm2 & evs2 & -> & Hevs2).
    { intros. by rewrite selected_with_calls. }
    exists nm2, wm2, (evs1 ++ evs2). rewrite with_calls_app. split; [done|].
    by apply Forall_app.
Qed.

Lemma relation_dependencies_gathered (relation : Relation) (self : HH.t) :
  (forall obj_id, is_Some (selected self obj_id)) ->
  exists relation_nodes relation_ways evs,
    HH.get_relation_and_its_dependencies_as_dict relation self
    = Ok ((relation, relation_nodes, relation_ways, []), with_calls evs self)
    /\ Forall (as_of_call (relation_timestamp relation)) evs.
Proof.
  intros Hsel. unfold HH.get_relation_and_its_dependencies_as_dict.
  destruct (members_loop self (relation_timestamp relation) (members relation) [] [] [] Hsel)
    as (nm & wm & evs & Hloop & Hevs).
  exists (dict_values nm), (dict_values wm), evs. split; [|done].
  cbv zeta. unfold bind, dict in *. by rewrite Hloop.
Qed.


(** *** Start-up *)

Lemma startup_ok (num_threads num_db_shards : Z) :
  num_threads <> 0 ->
  (num_threads | Z.max num_db_shards num_threads) ->
  startup num_threads num_db_shards = Ok (Z.max num_db_shards num_threads).
Proof.
  intros Hnz Hdiv. unfold startup.
  assert (Hadj : (if decide (num_threads > num_db_shards) then num_threads else num_db_shards)
                 = Z.max num_db_shards num_threads) by (case_decide; lia).
  rewrite Hadj. rewrite decide_False by done.
  apply Z.mod_divide in Hdiv; [|done].
  rewrite decide_False by lia. done.
Qed.

Lemma startup_raise (num_threads num_db_shards : Z) :
  num_threads <> 0 ->
  ~ (num_threads | Z.max num_db_shards num_threads) ->
  startup num_threads num_db_shards = Raise ShardsNotDivisible.
Proof.
  intros Hnz Hdiv. unfold startup.
  assert (Hadj : (if decide (num_threads > num_db_shards) then num_threads else num_db_shards)
                 = Z.max num_db_shards num_threads) by (case_decide; lia).
  rewrite Hadj. rewrite decide_False by done.
  rewrite decide_True; [done|].
  intros Hm. apply Hdiv. by apply Z.mod_divide.
Qed.

(** C8.  The shard count is first raised to the worker count when it is
    lower.  If the adjusted count is not a multiple of the worker count the
    program stops with the divisibility error, whatever the input file and
    flags, before the indexing pass; otherwise the start-up checks pass
    with the adjusted count.  (A worker count of zero is excluded: the
    remainder then raises a division error instead.) *)
Theorem startup_shard_check (num_threads num_db_shards : Z) :
  num_threads <> 0 ->
  let adjusted := if decide (num_db_shards < num_threads) then num_threads
                  else num_db_shards in
  ((num_threads | adjusted) -> startup num_threads num_db_shards = Ok adjusted) /\
  (~ (num_threads | adjusted) ->
     startup num_threads num_db_shards = Raise ShardsNotDivisible /\
     forall file merge_db_shards use_id_hash_partitioned_shards,
       main file num_threads num_db_shards merge_db_shards use_id_hash_partitioned_shards
       = Raise ShardsNotDivisible).
Proof.
  intros Hnz adjusted.
  assert (Hadj : adjusted = Z.max num_db_shards num_threads)
    by (unfold adjusted; case_decide; lia).
  rewrite Hadj. split.
  - by apply startup_ok.
  - intros Hdiv. pose proof (startup_raise _ _ Hnz Hdiv) as Hs. split; [done|].
    intros. unfold main. by rewrite Hs.
Qed.

(** *** The store of a lookup *)

Lemma get_osm_indexer_single (self : HH.t) (obj_id : Z) indexer :
  size (HH.osm_indexer_map self) = 1%nat ->
  HH.osm_indexer_map self !! 0 = Some indexer ->
  HH.get_osm_indexer_by_id obj_id self = Ok (indexer, self).
Proof.
  intros Hsize H0. unfold HH.get_osm_indexer_by_id. method_unfold.
  rewrite decide_True by done. by rewrite H0.
Qed.

Lemma get_osm_indexer_hashed (self self' : HH.t) (obj_id : Z) indexer :
  HH.get_osm_indexer_by_id obj_id self = Ok (indexer, self') ->
  HH.calls self' <> HH.calls self ->
  (1 < size (HH.osm_indexer_map self))%nat /\
  HH.calls self'
  = HH.calls self ++ [ShardComputed obj_id (stable_hash obj_id mod HH.num_shards self)].
Proof.
  unfold HH.get_osm_indexer_by_id, HH.record_call, get_uniformly_shard_index_from_id.
  method_unfold. case_decide as Hsize.
  - destruct (HH.osm_indexer_map self !! 0); [|done]. by intros [= _ ->].
  - case_decide; [done|]. cbn.
    destruct (HH.osm_indexer_map self !! _) as [ix|] eqn:Hix; [|done].
    intros [= _ <-] _. split; [|done].
    destruct (size (HH.osm_indexer_map self)) as [|[|k]] eqn:Hk; [|done|lia].
    apply map_size_empty_inv in Hk. by rewrite Hk, lookup_empty in Hix.
Qed.

(** C10.  With exactly one store open, which the main program keeps under
    slot 0, every lookup of any id is answered by that store and the
    handler is left as it was: in particular no call of the shard function
    is recorded.  The merged map of the main program is of this kind.  A
    lookup that did call the shard function had more than one store open. *)
Theorem single_store_serves_every_lookup (self : HH.t) (indexer : SQLiteOsmIndex) :
  size (HH.osm_indexer_map self) = 1%nat ->
  HH.osm_indexer_map self !! 0 = Some indexer ->
  (forall obj_id, HH.get_osm_indexer_by_id obj_id self = Ok (indexer, self)) /\
  (forall obj_id, shard_calls self obj_id = []) /\
  (forall dbs, size (merge_if_db_needed_and_upload_to_gcs dbs true) = 1%nat /\
               is_Some (merge_if_db_needed_and_upload_to_gcs dbs true !! 0)) /\
  (forall other obj_id found other',
     HH.get_osm_indexer_by_id obj_id other = Ok (found, other') ->
     HH.calls other' <> HH.calls other ->
     (1 < size (HH.osm_indexer_map other))%nat).
Proof.
  intros Hsize H0. split; [|split; [|split]].
  - intros. by apply get_osm_indexer_single.
  - intros. unfold shard_calls. by rewrite decide_True.
  - intros dbs. cbn. split; [apply map_size_singleton|].
    rewrite lookup_singleton_eq. by eexists.
  - intros other obj_id found other' Hget Hcalls.
    by destruct (get_osm_indexer_hashed _ _ _ _ Hget Hcalls).
Qed.

(** *** Nodes in the resolution pass *)

Lemma inherited_counted {A} (m : M OsmHandler.t A) a e (self : HH.t) :
  m (HH.base self) = Ok (a, counted e (HH.base self)) ->
  HH.inherited m self = Ok (a, HH.set_base (counted e (HH.base self)) self).
Proof. intros Hm. unfold HH.inherited. by rewrite Hm. Qed.

(** The other callbacks leave the nodes file alone. *)























(** *** The shards of a worker *)

Lemma insert_all_lookup (l : list Z) (m : gmap Z SQLiteOsmIndex) (s : Z) :
  foldl (fun m shard_index => <[shard_index := create (ShardDb shard_index)]> m) m l !! s
  = if decide (s ∈ l) then Some (create (ShardDb s)) else m !! s.
Proof.
  revert m. induction l as [|a l IH]; intros m; cbn [foldl].
  - rewrite decide_False; [done|]. apply not_elem_of_nil.
  - rewrite IH. destruct (decide (s ∈ l)) as [Hin|Hout].
    + rewrite decide_True; [done|]. by right.
    + destruct (decide (s = a)) as [->|Hne].
      * rewrite lookup_insert_eq. rewrite decide_True; [done|]. by left.
      * rewrite lookup_insert_ne by done. rewrite decide_False; [done|].
        by intros [?|?]%elem_of_cons.
Qed.

Lemma created_indexers_lookup (start_index thread_batch_size s : Z) :
  created_indexers start_index thread_batch_size !! s
  = if decide (start_index <= s < start_index + thread_batch_size)
    then Some (create (ShardDb s)) else None.
Proof.
  unfold created_indexers. rewrite insert_all_lookup, lookup_empty.
  destruct (decide (s ∈ seqZ start_index thread_batch_size)) as [Hin|Hout];
    rewrite elem_of_seqZ in *; [by rewrite decide_True|by rewrite decide_False].
Qed.

Lemma ceil_div_multiple (a b : Z) : b <> 0 -> (b | a) -> ceil_div a b = a / b.
Proof.
  intros Hb [k ->]. unfold ceil_div.
  rewrite <- Z.mul_opp_l, !Z.div_mul by done. lia.
Qed.

Lemma uncommitted_created (start_index thread_batch_size : Z) :
  uncommitted (created_indexers start_index thread_batch_size) = 0%nat.
Proof.
  unfold uncommitted.
  apply (map_fold_weak_ind
           (fun acc (m : gmap Z SQLiteOsmIndex) =>
              (forall i x, m !! i = Some x ->
                 created_indexers start_index thread_batch_size !! i = Some x) ->
              acc = 0%nat)); [done| |done].
  intros i x m acc Hi IH Hsub.
  rewrite IH.
  - specialize (Hsub i x (lookup_insert_eq _ _ _)).
    rewrite created_indexers_lookup in Hsub. case_decide; [|done].
    by injection Hsub as <-.
  - intros j y Hj. apply Hsub. rewrite lookup_insert_ne; [done|]. by intros ->; rewrite Hi in Hj.
Qed.

Lemma run_index_creator_steps file m c num_shards hash pool_size pool_index :
  num_shards <> 0 ->
  exists handler,
    run_index_creator file m c num_shards hash pool_size pool_index = Ok (tt, handler) /\
    handler = foldl (fun s o => step o s)
                {| IC.base :=
                     {| OsmHandler.processing_counter := c;
                        OsmHandler.current_entity_type := None;
                        OsmHandler.logging_range_count := 1000000;
                        OsmHandler.pool_size := pool_size;
                        OsmHandler.pool_index := pool_index |};
                   IC.osm_indexer_map := m;
                   IC.num_shards := num_shards;
                   IC.batch_size_to_commit := 1000000;
                   IC.is_id_hash_partitioned_shards := hash |} file.
Proof.
  intros Hs. eexists. split; [|reflexivity].
  unfold run_index_creator. apply apply_file_steps. by repeat split.
Qed.




(** *** Commits of the indexing pass *)

Lemma step_batch_size o self :
  IC.batch_size_to_commit (step o self) = IC.batch_size_to_commit self.
Proof. unfold step. by case_decide. Qed.

Lemma steps_uncommitted file self :
  0 < IC.num_shards self -> 0 < IC.batch_size_to_commit self -> owns_all self ->
  Z.of_nat (uncommitted (IC.osm_indexer_map self))
    <= residue (IC.batch_size_to_commit self) (OsmHandler.processing_counter (IC.base self)) ->
  Z.of_nat (uncommitted (IC.osm_indexer_map (foldl (fun s o => step o s) self file)))
    <= residue (IC.batch_size_to_commit self)
         (OsmHandler.processing_counter (IC.base (foldl (fun s o => step o s) self file))).
Proof.
  revert self. induction file as [|o file IH]; intros self HS HB Hall Hinv; [done|].
  cbn [foldl]. rewrite <- (step_batch_size o self). apply IH.
  - unfold step. by case_decide.
  - by rewrite step_batch_size.
  - by apply step_owns_all.
  - by apply step_uncommitted.
Qed.

(** C9, as the code has it.  A worker counts every record of the stream
    under the record's kind.  A record whose slot the worker does not hold
    is neither stored nor followed by a commit; a record it holds is
    stored, and every store of the worker is then committed exactly when
    the counter of the record's kind has reached a multiple of
    [batch_size_to_commit].  In a single worker that holds every slot, the
    rows waiting for a commit never outnumber the sum over the three kinds
    of the counter modulo 1,000,000, which is below 3,000,000. *)
Theorem commit_when_kind_counter_due :
  (forall (o : osm_object) (self : IC.t),
     well_configured self ->
     exists self',
       IC.callback o self = Ok (tt, self') /\
       OsmHandler.processing_counter (IC.base self')
       = set_count (OsmHandler.processing_counter (IC.base self)) (entity_of o)
           (count (OsmHandler.processing_counter (IC.base self)) (entity_of o) + 1) /\
       (IC.osm_indexer_map self !! slot self o = None ->
        IC.osm_indexer_map self' = IC.osm_indexer_map self) /\
       (is_Some (IC.osm_indexer_map self !! slot self o) ->
        IC.osm_indexer_map self'
        = if due self o
          then save <$> alter (put_row o) (slot self o) (IC.osm_indexer_map self)
          else alter (put_row o) (slot self o) (IC.osm_indexer_map self))) /\
  (forall (file : list osm_object) (S : Z) (hash : bool),
     0 < S ->
     exists handler,
       run_index_creator file (created_indexers 0 S) create_processing_counter S hash 1 0
       = Ok (tt, handler) /\
       Z.of_nat (uncommitted (IC.osm_indexer_map handler))
       <= residue 1000000 (OsmHandler.processing_counter (IC.base handler)) /\
       residue 1000000 (OsmHandler.processing_counter (IC.base handler)) <= 3 * 999999).
Proof.
  split.
  - intros o self Hwc. exists (step o self). split; [by apply callback_step|].
    unfold step. case_decide as Hown; cbn.
    + split; [done|]. split; [|done].
      intros Hnone. rewrite Hnone in Hown. by destruct Hown.
    + split; [done|]. split; [done|]. by intros.
  - intros file S hash HS.
    destruct (run_index_creator_steps file (created_indexers 0 S) create_processing_counter
                S hash 1 0) as (handler & Hrun & Hh); [lia|].
    exists handler. split; [done|].
    split.
    + rewrite Hh.
      match goal with |- context [foldl _ ?init file] =>
        pose proof (steps_uncommitted file init) as Hinv end.
      apply Hinv; cbn; try lia.
      * intros b Hb. cbn in *. rewrite created_indexers_lookup. rewrite decide_True by lia. by eexists.
      * by rewrite uncommitted_created.
    + by apply (residue_below 1000000).
Qed.

(** With every counter below the batch size no commit happens. *)

Lemma step_no_commit o self :
  0 < IC.num_shards self -> owns_all self ->
  0 <= count (OsmHandler.processing_counter (IC.base self)) (entity_of o) ->
  count (OsmHandler.processing_counter (IC.base self)) (entity_of o) + 1
    < IC.batch_size_to_commit self ->
  uncommitted (IC.osm_indexer_map (step o self)) = S (uncommitted (IC.osm_indexer_map self)) /\
  OsmHandler.processing_counter (IC.base (step o self))
  = set_count (OsmHandler.processing_counter (IC.base self)) (entity_of o)
      (count (OsmHandler.processing_counter (IC.base self)) (entity_of o) + 1).
Proof.
  intros HS Hall Hc HB. unfold step.
  rewrite decide_True by (apply Hall; by apply slot_in_range). cbn.
  unfold due. rewrite bool_decide_eq_false_2.
  - split; [|done]. apply uncommitted_alter. apply Hall. by apply slot_in_range.
  - rewrite Z.mod_small by lia. lia.
Qed.

Lemma steps_no_commit (k : nat) o self :
  0 < IC.num_shards self -> owns_all self ->
  0 <= count (OsmHandler.processing_counter (IC.base self)) (entity_of o) ->
  count (OsmHandler.processing_counter (IC.base self)) (entity_of o) + Z.of_nat k
    < IC.batch_size_to_commit self ->
  let final := foldl (fun s o => step o s) self (replicate k o) in
  uncommitted (IC.osm_indexer_map final) = (uncommitted (IC.osm_indexer_map self) + k)%nat /\
  OsmHandler.processing_counter (IC.base final)
  = set_count (OsmHandler.processing_counter (IC.base self)) (entity_of o)
      (count (OsmHandler.processing_counter (IC.base self)) (entity_of o) + Z.of_nat k) /\
  owns_all final /\
  IC.num_shards final = IC.num_shards self /\
  IC.batch_size_to_commit final = IC.batch_size_to_commit self.
Proof.
  revert self. induction k as [|k IH]; intros self HS Hall Hc HB; cbn [replicate foldl].
  - cbn. rewrite Z.add_0_r, Nat.add_0_r. repeat split; try done.
    destruct (OsmHandler.processing_counter (IC.base self)), (entity_of o); done.
  - destruct (step_no_commit o self) as [Hu Hcount]; [done|done|done|lia|].
    assert (HS' : IC.num_shards (step o self) = IC.num_shards self)
      by (unfold step; by case_decide).
    assert (HB' : IC.batch_size_to_commit (step o self) = IC.batch_size_to_commit self)
      by apply step_batch_size.
    destruct (IH (step o self)) as (Hu' & Hc' & Hall' & HS'' & HB'').
    + by rewrite HS'.
    + by apply step_owns_all.
    + rewrite Hcount, count_set_count. lia.
    + rewrite Hcount, count_set_count, HB'. lia.
    + cbv zeta. rewrite Hu', Hc', Hu, Hcount, HS'', HB'', count_set_count.
      repeat split; try done; try lia.
      destruct (OsmHandler.processing_counter (IC.base self)), (entity_of o); cbn; f_equal; lia.
Qed.

Lemma two_kinds_below_the_batch_size (k : nat) :
  Z.of_nat k = 999999 ->
  exists handler,
    run_index_creator (replicate k (ONode node_2) ++ replicate k (OWay way_9))
      (created_indexers 0 1) create_processing_counter 1 false 1 0 = Ok (tt, handler) /\
    IC.batch_size_to_commit handler = 1000000 /\
    Z.of_nat (uncommitted (IC.osm_indexer_map handler)) = 1999998.
Proof.
  intros Hk.
  destruct (run_index_creator_steps
              (replicate k (ONode node_2) ++ replicate k (OWay way_9))
              (created_indexers 0 1) create_processing_counter 1 false 1 0)
    as (handler & Hrun & Hh); [lia|].
  exists handler. split; [done|]. rewrite Hh, foldl_app.
  match goal with |- context [foldl _ ?init (replicate _ (ONode _))] =>
    destruct (steps_no_commit k (ONode node_2) init)
      as (Hu1 & Hc1 & Hall1 & HS1 & HB1) end.
  { cbn. lia. }
  { intros b Hb. cbn in *. rewrite created_indexers_lookup, decide_True by lia. by eexists. }
  { cbn. lia. }
  { cbn. lia. }
  cbv zeta in *.
  match goal with |- context [foldl _ ?mid (replicate _ (OWay _))] =>
    destruct (steps_no_commit k (OWay way_9) mid)
      as (Hu2 & _ & _ & _ & HB2) end.
  { by rewrite HS1. }
  { done. }
  { rewrite Hc1. cbn. lia. }
  { rewrite Hc1, HB1. cbn. lia. }
  cbv zeta in Hu2, HB2. split; [by rewrite HB2, HB1|].
  rewrite Hu2, Hu1.
  change (IC.osm_indexer_map _) with (created_indexers 0 1) at 1.
  rewrite uncommitted_created. lia.
Qed.

(** *** Relations in the resolution pass *)

Lemma has_relation_spec (ms : list Member) :
  HH.has_relation ms = true <-> exists member, member ∈ ms /\ type member = type_r.
Proof.
  induction ms as [|m ms IH]; cbn.
  - split; [done|]. intros (member & Hin & _). by apply not_elem_of_nil in Hin.
  - case_decide as Hty.
    + split; [|done]. intros _. exists m. split; [left|done].
    + rewrite IH. split.
      * intros (member & Hin & Hr). exists member. split; [by right|done].
      * intros (member & Hin & Hr). apply elem_of_cons in Hin as [->|Hin]; [done|].
        by exists member.
Qed.

Lemma selected_set_base b self obj_id :
  selected (HH.set_base b self) obj_id = selected self obj_id.
Proof.
  unfold selected, HH.get_osm_indexer_by_id, HH.record_call,
    get_uniformly_shard_index_from_id, HH.with_calls. method_unfold. cbn.
  case_decide; [by destruct (_ !! 0)|].
  case_decide; [done|]. cbn. by destruct (_ !! _).
Qed.

Lemma write_all {A} kind (f : A -> json_line) (l : list A) (self : HH.t) :
  for_each l (fun d => HH.write_out_to_jsonl kind (f d)) self
  = Ok (tt, HH.set_entities_out_files_dict
              (foldl (fun files d => write kind (f d) files)
                 (HH.entities_out_files_dict self) l) self).
Proof.
  revert self. induction l as [|d l IH]; intros self; cbn [for_each foldl].
  - by destruct self.
  - unfold bind, HH.write_out_to_jsonl, modify. rewrite IH. by destruct self.
Qed.

Lemma lines_write_all {A} kind (f : A -> json_line) (l : list A) (files : out_files) :
  lines (foldl (fun files d => write kind (f d) files) files l) kind
  = lines files kind ++ (f <$> l).
Proof.
  revert files. induction l as [|d l IH]; intros files; cbn [foldl fmap list_fmap].
  - by rewrite app_nil_r.
  - rewrite IH. destruct kind; cbn; by rewrite <- app_assoc.
Qed.

Lemma relation_without_relation_member (x : Relation) (self : HH.t) :
  OsmHandler.logging_range_count (HH.base self) <> 0 ->
  HH.has_relation (members x) = false ->
  HH.relation x self = Ok (tt, HH.set_base (counted relations (HH.base self)) self).
Proof.
  intros Hlog Hno. unfold HH.relation. unfold bind at 1.
  rewrite (inherited_counted _ tt relations) by by apply OsmHandler_relation_counted.
  by rewrite Hno.
Qed.

Lemma relation_with_relation_member (x : Relation) (self : HH.t) :
  OsmHandler.logging_range_count (HH.base self) <> 0 ->
  HH.has_relation (members x) = true ->
  (forall obj_id, is_Some (selected self obj_id)) ->
  exists self' sid,
    HH.relation x self = Ok (tt, self') /\
    ((BM.main_relations (HH.batch_manager self')
      = BM.main_relations (HH.batch_manager self) ++ [(sid, x)] /\
      HH.entities_out_files_dict self' = HH.entities_out_files_dict self)
     \/
     (BM.main_relations (HH.batch_manager self') = [] /\
      exists id_geometry_map,
        lines (HH.entities_out_files_dict self') relations
        = lines (HH.entities_out_files_dict self) relations ++
          ((fun p => relation_line p.2 (BM.geometry_of id_geometry_map p.1))
             <$> (BM.main_relations (HH.batch_manager self) ++ [(sid, x)])))).
Proof.
  intros Hlog Hhas Hsel. unfold HH.relation. unfold bind at 1.
  rewrite (inherited_counted _ tt relations) by by apply OsmHandler_relation_counted.
  rewrite Hhas.
  set (s0 := HH.set_base (counted relations (HH.base self)) self).
  assert (Hsel0 : forall obj_id, is_Some (selected s0 obj_id)).
  { intros. unfold s0. by rewrite selected_set_base. }
  destruct (relation_dependencies_gathered x s0 Hsel0) as (ns & ws & evs & Hget & _).
  unfold bind at 1. rewrite Hget.
  unfold HH.on_batch_manager at 1. unfold bind at 1.
  unfold BM.replace_ids_in_relation_and_its_dependencies.
  unfold bind at 1. unfold get at 1.
  destruct (BM.intern_all ns _) as [ns' known_nodes].
  destruct (BM.intern_all ws _) as [ws' known_ways].
  cbn [BM.intern_all BM.fresh].
  unfold bind at 1. unfold put at 1. unfold ret at 1.
  set (sid := Z.of_nat (length (BM.simplified_relations
                                  (HH.batch_manager (with_calls evs s0)))) + 1).
  unfold HH.sort_and_write_to_osm_file, HH.current_kind, HH.record_call.
  unfold bind, HH.on_batch_manager, BM.add_osm_dicts_to_batches, BM.is_full,
    BM.get_batches_values_sorted_lists, BM.get_main_relations_simplified_ids,
    BM.restore_relations_ids_and_add_geometry, BM.reset, modify, get, ret, raise.
  unfold HH.with_calls, s0. cbn -[merge_sort BM.add_missing].
  match goal with |- context [if ?b then _ else _] => destruct b end.
  - cbv beta. rewrite write_all. cbn -[merge_sort BM.add_missing write lines].
    eexists _, sid. split; [reflexivity|]. right. split; [done|].
    eexists. cbn -[merge_sort BM.add_missing write lines].
    match goal with |- relations_jsonl ?files = _ =>
      change (relations_jsonl files) with (lines files relations) end.
    rewrite (lines_write_all relations). by rewrite <- list_fmap_compose.
  - eexists _, sid. split; [reflexivity|]. by left.
Qed.

(** C2, as the code has it.  A relation version is put in the batch
    buffer exactly when its member list has a member of kind Relation (the
    loop of the callback finds one).  With such a member the version joins
    the main relations of the batch, which then either wait or are flushed
    together, one line each.  Without one the callback only counts the
    version: the batch buffer, the log of calls and all three output files
    stay as they were, so no line is written for it. *)
Theorem relation_batched_iff_relation_member (x : Relation) (self : HH.t) :
  OsmHandler.logging_range_count (HH.base self) <> 0 ->
  (HH.has_relation (members x) = true
   <-> exists member, member ∈ members x /\ type member = type_r) /\
  (HH.has_relation (members x) = false ->
   HH.relation x self = Ok (tt, HH.set_base (counted relations (HH.base self)) self)) /\
  (HH.has_relation (members x) = true ->
   (forall obj_id, is_Some (selected self obj_id)) ->
   exists self' sid,
     HH.relation x self = Ok (tt, self') /\
     ((BM.main_relations (HH.batch_manager self')
       = BM.main_relations (HH.batch_manager self) ++ [(sid, x)] /\
       HH.entities_out_files_dict self' = HH.entities_out_files_dict self)
      \/
      (BM.main_relations (HH.batch_manager self') = [] /\
       exists id_geometry_map,
         lines (HH.entities_out_files_dict self') relations
         = lines (HH.entities_out_files_dict self) relations ++
           ((fun p => relation_line p.2 (BM.geometry_of id_geometry_map p.1))
              <$> (BM.main_relations (HH.batch_manager self) ++ [(sid, x)]))))).
Proof.
  intros Hlog. split; [apply has_relation_spec|]. split.
  - by apply relation_without_relation_member.
  - by apply relation_with_relation_member.
Qed.

(** *** Shard of a lookup against shard of storage *)

Lemma hash_mode_same_slot (indexing : IC.t) (resolving : HH.t) (o : osm_object) :
  IC.is_id_hash_partitioned_shards indexing = true ->
  HH.num_shards resolving = IC.num_shards indexing ->
  size (HH.osm_indexer_map resolving) <> 1%nat ->
  shard_calls resolving (osm_id o) = [ShardComputed (osm_id o) (slot indexing o)].
Proof.
  intros Hhash Hnum Hsize. unfold shard_calls, slot.
  rewrite decide_False by done. by rewrite Hhash, Hnum.
Qed.

(** C1 fails in counter mode.  One worker, two shards, shards kept apart,
    no hash partitioning: the first version of node 7 is stored under slot
    1 and the second under slot 0, by arrival order.  The resolution pass
    still picks the store of an id by the hash, so whatever the hash, the
    store it consults for node 7 lacks one of the node's two versions. *)
Theorem counter_mode_lookup_misses_a_version :
  exists dbs c first_store second_store,
    run_create_osm_index_in_parallel [ONode node_7_first; ONode node_7_moved] 1 2 false
    = Ok (dbs, c) /\
    dbs !! 1 = Some first_store /\ node_rows first_store = [node_7_first] /\
    dbs !! 0 = Some second_store /\ node_rows second_store = [node_7_moved] /\
    forall (handler handler' : HH.t) (indexer : SQLiteOsmIndex),
      HH.osm_indexer_map handler = merge_if_db_needed_and_upload_to_gcs dbs false ->
      HH.num_shards handler = 2 ->
      HH.get_osm_indexer_by_id 7 handler = Ok (indexer, handler') ->
      ~ (node_7_first ∈ node_rows indexer /\ node_7_moved ∈ node_rows indexer).
Proof.
  eexists _, _, _, _. split; [vm_compute; reflexivity|].
  split; [vm_compute; reflexivity|]. split; [reflexivity|].
  split; [vm_compute; reflexivity|]. split; [reflexivity|].
  intros handler handler' indexer Hmap Hnum.
  unfold HH.get_osm_indexer_by_id, HH.record_call, get_uniformly_shard_index_from_id.
  method_unfold. rewrite Hmap, Hnum. cbn [merge_if_db_needed_and_upload_to_gcs].
  rewrite decide_False by (vm_compute; lia).
  rewrite decide_False by done. cbn.
  assert (Hcases : stable_hash 7 mod 2 = 0 \/ stable_hash 7 mod 2 = 1)
    by (pose proof (Z.mod_pos_bound (stable_hash 7) 2); lia).
  destruct Hcases as [-> | ->].
  - vm_compute. intros [= <- _] [Hfirst _].
    apply list_elem_of_singleton in Hfirst. discriminate Hfirst.
  - vm_compute. intros [= <- _] [_ Hmoved].
    apply list_elem_of_singleton in Hmoved. discriminate Hmoved.
Qed.

(** C3 fails for relations.  A stream of two relations: the first has a
    Relation member and joins the batch without filling it; the second,
    the last record of the stream, has none, so its callback returns
    before the fullness test.  When the files are closed the first
    relation is still in the batch, the relations file is empty, and no
    temporary file was written nor the geometry builder called. *)
Theorem residual_relation_batch_not_flushed :
  exists handler,
    main [ORelation relation_200; ORelation relation_300] 1 1 true false = Ok handler /\
    BM.main_relations (HH.batch_manager handler) = [(1, relation_200)] /\
    lines (HH.entities_out_files_dict handler) relations = [] /\
    HH.calls handler = [].
Proof. eexists. split; [vm_compute; reflexivity|]. by repeat split. Qed.
End Properties.

(** ** More of the indexing pass *)

Section IndexingPass.
Context `{External}.

Lemma step_counter o (self : IC.t) :
  OsmHandler.processing_counter (IC.base (step o self))
  = count_record (OsmHandler.processing_counter (IC.base self)) o.
Proof. unfold step. by case_decide. Qed.

Lemma step_settings o (self : IC.t) :
  IC.num_shards (step o self) = IC.num_shards self /\
  IC.batch_size_to_commit (step o self) = IC.batch_size_to_commit self /\
  IC.is_id_hash_partitioned_shards (step o self) = IC.is_id_hash_partitioned_shards self.
Proof. unfold step. by case_decide. Qed.

Lemma steps_counter file (self : IC.t) :
  OsmHandler.processing_counter (IC.base (foldl (fun s o => step o s) self file))
  = tally (OsmHandler.processing_counter (IC.base self)) file.
Proof.
  revert self. induction file as [|o file IH]; intros self; [done|].
  cbn [foldl]. rewrite IH, step_counter. done.
Qed.

Lemma slot_slot_of o (self : IC.t) :
  slot self o
  = slot_of (IC.is_id_hash_partitioned_shards self) (IC.num_shards self)
      (OsmHandler.processing_counter (IC.base self)) o.
Proof.
  unfold slot, slot_of, count_record. destruct (IC.is_id_hash_partitioned_shards self); [done|].
  by rewrite count_set_count.
Qed.

Lemma held_save ix :
  nodes_held (save ix) = nodes_held ix /\
  ways_held (save ix) = ways_held ix /\
  relations_held (save ix) = relations_held ix.
Proof. unfold nodes_held, ways_held, relations_held. cbn. by rewrite !app_nil_r. Qed.

Lemma held_put_row o ix :
  nodes_held (put_row o ix) = nodes_held ix ++ rows_of_nodes [o] /\
  ways_held (put_row o ix) = ways_held ix ++ rows_of_ways [o] /\
  relations_held (put_row o ix) = relations_held ix ++ rows_of_relations [o].
Proof.
  unfold nodes_held, ways_held, relations_held, rows_of_nodes, rows_of_ways,
    rows_of_relations. cbn. rewrite !omap_app, !app_assoc. done.
Qed.

(** What one record does to the store of a slot. *)
Lemma step_store o (self : IC.t) s ix :
  IC.osm_indexer_map self !! s = Some ix ->
  exists ix',
    IC.osm_indexer_map (step o self) !! s = Some ix' /\
    db_file_path ix' = db_file_path ix /\
    nodes_held ix' = nodes_held ix ++ rows_of_nodes (if decide (slot self o = s) then [o] else []) /\
    ways_held ix' = ways_held ix ++ rows_of_ways (if decide (slot self o = s) then [o] else []) /\
    relations_held ix'
    = relations_held ix ++ rows_of_relations (if decide (slot self o = s) then [o] else []).
Proof.
  intros Hs. unfold step.
  destruct (decide (is_Some (IC.osm_indexer_map self !! slot self o))) as [Hown|Hnot].
  - cbn. destruct (due self o).
    + rewrite lookup_fmap, lookup_alter. case_decide as Heq.
      * subst s. rewrite Hs. cbn. eexists. split; [done|].
        destruct (held_save (put_row o ix)) as (-> & -> & ->).
        destruct (held_put_row o ix) as (-> & -> & ->). done.
      * rewrite Hs. cbn. eexists. split; [done|].
        destruct (held_save ix) as (-> & -> & ->). cbn. by rewrite !app_nil_r.
    + rewrite lookup_alter. case_decide as Heq.
      * subst s. rewrite Hs. cbn. eexists. split; [done|].
        destruct (held_put_row o ix) as (-> & -> & ->). done.
      * rewrite Hs. eexists. split; [done|]. cbn. by rewrite !app_nil_r.
  - cbn. exists ix. split; [done|]. split; [done|].
    rewrite decide_False; [cbn; by rewrite !app_nil_r|].
    intros <-. apply Hnot. by eexists.
Qed.

Lemma steps_store file (self : IC.t) s ix :
  IC.osm_indexer_map self !! s = Some ix ->
  exists ix',
    IC.osm_indexer_map (foldl (fun s o => step o s) self file) !! s = Some ix' /\
    db_file_path ix' = db_file_path ix /\
    nodes_held ix'
    = nodes_held ix ++
      rows_of_nodes (routed (IC.is_id_hash_partitioned_shards self) (IC.num_shards self)
                       (OsmHandler.processing_counter (IC.base self)) file s) /\
    ways_held ix'
    = ways_held ix ++
      rows_of_ways (routed (IC.is_id_hash_partitioned_shards self) (IC.num_shards self)
                      (OsmHandler.processing_counter (IC.base self)) file s) /\
    relations_held ix'
    = relations_held ix ++
      rows_of_relations (routed (IC.is_id_hash_partitioned_shards self) (IC.num_shards self)
                           (OsmHandler.processing_counter (IC.base self)) file s).
Proof.
  revert self ix. induction file as [|o file IH]; intros self ix Hs.
  - exists ix. cbn. by rewrite !app_nil_r.
  - cbn [foldl].
    destruct (step_store o self s ix Hs) as (ix1 & H1 & Hp1 & Hn1 & Hw1 & Hr1).
    destruct (IH (step o self) ix1 H1) as (ix2 & H2 & Hp2 & Hn2 & Hw2 & Hr2).
    exists ix2. split; [done|]. split; [congruence|].
    destruct (step_settings o self) as (HS & _ & Hh).
    rewrite HS, Hh, step_counter in Hn2, Hw2, Hr2.
    rewrite Hn2, Hw2, Hr2, Hn1, Hw1, Hr1.
    cbn [routed]. rewrite <- slot_slot_of.
    unfold rows_of_nodes, rows_of_ways, rows_of_relations.
    rewrite !omap_app, !app_assoc. done.
Qed.

Lemma ceil_div_bounds (a b : Z) : 0 < b -> a <= b * ceil_div a b < a + b.
Proof.
  intros Hb. unfold ceil_div.
  pose proof (Z.div_mod (- a) b) as Hdm. pose proof (Z.mod_pos_bound (- a) b Hb). lia.
Qed.



(** The stores one worker returns. *)
Lemma create_osm_index_stores file S T w hash :
  T <> 0 -> S <> 0 ->
  exists dbs,
    create_osm_index file S T w hash = Ok (dbs, tally create_processing_counter file) /\
    forall s, dbs !! s
              = if decide (w * ceil_div S T <= s < w * ceil_div S T + ceil_div S T)
                then Some (shard_store hash S file s) else None.
Proof.
  intros HT HS. unfold create_osm_index. rewrite decide_False by done.
  destruct (run_index_creator_steps file
              (created_indexers (w * ceil_div S T) (ceil_div S T))
              create_processing_counter S hash T w HS) as (handler & -> & Hh).
  eexists. split.
  { f_equal. f_equal. rewrite Hh, steps_counter. done. }
  intros s. rewrite lookup_fmap.
  pose proof (created_indexers_lookup (w * ceil_div S T) (ceil_div S T) s) as Hcreated.
  case_decide as Hin.
  - rewrite Hh.
    match goal with |- context [foldl _ ?init file] =>
      destruct (steps_store file init s _ Hcreated) as (ix & -> & Hp & Hn & Hw & Hr) end.
    cbn in Hp, Hn, Hw, Hr. cbn. f_equal.
    unfold close, save, shard_store. f_equal; try done.
  - destruct (IC.osm_indexer_map handler !! s) as [ix|] eqn:Hix; [|done].
    exfalso. assert (Hsome : is_Some (IC.osm_indexer_map handler !! s)) by by eexists.
    rewrite Hh, steps_owned in Hsome. cbn in Hsome. rewrite Hcreated in Hsome.
    by destruct Hsome.
Qed.

Lemma get_all_fmap {A B} (f : A -> result B) (g : A -> B) (l : list A) :
  (forall a, a ∈ l -> f a = Ok (g a)) -> get_all (f <$> l) = Ok (g <$> l).
Proof.
  induction l as [|a l IH]; intros Hf; [done|].
  cbn. rewrite (Hf a) by left. rewrite IH; [done|]. intros. apply Hf. by right.
Qed.

Lemma lookup_joined {A} (l : list (gmap Z SQLiteOsmIndex * A)) (acc : gmap Z SQLiteOsmIndex)
    (s : Z) (x : SQLiteOsmIndex) :
  (forall p, p ∈ l -> p.1 !! s = Some x \/ p.1 !! s = None) ->
  (foldl (fun dbs db_and_counter => fst db_and_counter ∪ dbs) acc l !! s = Some x
   /\ exists p, p ∈ l /\ p.1 !! s = Some x)
  \/ (foldl (fun dbs db_and_counter => fst db_and_counter ∪ dbs) acc l !! s = acc !! s
      /\ forall p, p ∈ l -> p.1 !! s = None).
Proof.
  revert acc. induction l as [|p l IH]; intros acc Hl; cbn [foldl].
  - right. split; [done|]. intros p Hp. by apply not_elem_of_nil in Hp.
  - destruct (IH (p.1 ∪ acc)) as [(-> & q & Hq & Hqs)|(-> & Hno)];
      [intros; apply Hl; by right| |].
    + left. split; [done|]. exists q. split; [by right|done].
    + rewrite lookup_union. destruct (Hl p) as [Hp|Hp]; [by left| |]; rewrite Hp.
      * left. split; [by destruct (acc !! s)|]. exists p. split; [by left|done].
      * right. split; [by destruct (acc !! s)|].
        intros q Hq. apply elem_of_cons in Hq as [->|Hq]; [done|by apply Hno].
Qed.

Lemma some_worker_owns (T k s : Z) :
  0 < T -> 0 < k ->
  (exists w, w ∈ seqZ 0 T /\ w * k <= s < w * k + k) <-> 0 <= s < T * k.
Proof.
  intros HT Hk. split.
  - intros (w & Hw & Hs). apply elem_of_seqZ in Hw. nia.
  - intros Hs. exists (s / k). split.
    + apply elem_of_seqZ. split; [apply Z.div_pos; lia|].
      cbn. apply Z.div_lt_upper_bound; lia.
    + pose proof (Z.div_mod s k). pose proof (Z.mod_pos_bound s k). lia.
Qed.

(** The indexing pass as a whole. *)
Lemma indexing_pass_result file T S hash :
  0 < T -> 0 < S ->
  exists dbs,
    run_create_osm_index_in_parallel file T S hash
    = Ok (dbs, tally create_processing_counter file) /\
    forall s, dbs !! s
              = if decide (0 <= s < T * ceil_div S T)
                then Some (shard_store hash S file s) else None.
Proof.
  intros HT HS. unfold run_create_osm_index_in_parallel.
  rewrite decide_False by lia.
  pose proof (ceil_div_bounds S T HT) as Hceil.
  assert (Hk : 0 < ceil_div S T) by nia.
  set (worker := fun w : Z =>
         (list_to_map ((fun s => (s, shard_store hash S file s))
                          <$> seqZ (w * ceil_div S T) (ceil_div S T)) : gmap Z SQLiteOsmIndex,
          tally create_processing_counter file)).
  assert (Hworker : forall w s,
             (worker w).1 !! s
             = if decide (w * ceil_div S T <= s < w * ceil_div S T + ceil_div S T)
               then Some (shard_store hash S file s) else None).
  { intros w s. cbn. case_decide as Hin.
    - apply elem_of_list_to_map.
      + rewrite <- list_fmap_compose. cbn. rewrite list_fmap_id. apply NoDup_seqZ.
      + apply list_elem_of_fmap. exists s. split; [done|]. by apply elem_of_seqZ.
    - apply not_elem_of_list_to_map. rewrite <- list_fmap_compose. cbn.
      rewrite list_fmap_id. by rewrite elem_of_seqZ. }
  rewrite (get_all_fmap _ worker).
  2:{ intros w _. destruct (create_osm_index_stores file S T w hash) as (dbs & -> & Hdbs);
        [lia..|].
      f_equal. unfold worker. f_equal. apply map_eq. intros s.
      rewrite Hdbs. symmetry. apply Hworker. }
  cbv zeta.
  destruct (worker <$> seqZ 0 T) as [|[first first_counter] others] eqn:Hworkers.
  { rewrite (seqZ_cons 0 T) in Hworkers by lia. discriminate Hworkers. }
  assert (first_counter = tally create_processing_counter file) as ->.
  { rewrite (seqZ_cons 0 T) in Hworkers by lia. by injection Hworkers as _ <- _. }
  rewrite <- Hworkers.
  eexists. split; [reflexivity|].
  intros s.
  destruct (lookup_joined (worker <$> seqZ 0 T) ∅ s (shard_store hash S file s))
    as [(-> & p & Hp & Hps)|(-> & Hno)].
  { intros p Hp. apply list_elem_of_fmap in Hp as (w & -> & _).
    rewrite Hworker. case_decide; auto. }
  - apply list_elem_of_fmap in Hp as (w & -> & Hw).
    rewrite Hworker in Hps. case_decide as Hin; [|done].
    rewrite decide_True; [done|].
    apply (some_worker_owns T (ceil_div S T) s HT Hk). by exists w.
  - rewrite lookup_empty. rewrite decide_False; [done|].
    intros Hs. apply (some_worker_owns T (ceil_div S T) s HT Hk) in Hs as (w & Hw & Hin).
    specialize (Hno (worker w)). rewrite Hworker, decide_True in Hno by done.
    discriminate Hno. apply list_elem_of_fmap. by exists w.
Qed.

Lemma count_count_record c o e :
  count (count_record c o) e = count c e + (if decide (entity_of o = e) then 1 else 0).
Proof.
  unfold count_record. case_decide as He.
  - subst e. by rewrite count_set_count.
  - rewrite count_set_count_ne by done. lia.
Qed.

Lemma tally_count c file e :
  count (tally c file) e
  = count c e + Z.of_nat (length (filter (fun o => entity_of o = e) file)).
Proof.
  unfold tally. revert c. induction file as [|o file IH]; intros c; cbn [foldl].
  - cbn. lia.
  - rewrite IH, count_count_record, filter_cons. case_decide; cbn [length]; lia.
Qed.

Lemma indexing_pass_map file T S hash :
  0 < T -> 0 < S ->
  run_create_osm_index_in_parallel file T S hash
  = Ok (list_to_map ((fun s => (s, shard_store hash S file s)) <$> seqZ 0 (T * ceil_div S T)),
        tally create_processing_counter file).
Proof.
  intros HT HS. destruct (indexing_pass_result file T S hash HT HS) as (dbs & -> & Hdbs).
  f_equal. f_equal. apply map_eq. intros s. rewrite Hdbs. symmetry. case_decide as Hin.
  - apply elem_of_list_to_map.
    + rewrite <- list_fmap_compose. cbn. rewrite list_fmap_id. apply NoDup_seqZ.
    + apply list_elem_of_fmap. exists s. split; [done|]. apply elem_of_seqZ. lia.
  - apply not_elem_of_list_to_map. rewrite <- list_fmap_compose. cbn.
    rewrite list_fmap_id. rewrite elem_of_seqZ. lia.
Qed.







(** X1.  The counter the indexing pass returns holds, for each kind, the
    number of records of that kind in the stream, whatever the numbers of
    workers and shards and the partitioning mode: every worker counts the
    whole stream, the records of other workers' shards included. *)
Theorem indexing_counts_every_record (file : list osm_object) (T S : Z) (hash : bool) :
  0 < T -> 0 < S ->
  exists dbs c,
    run_create_osm_index_in_parallel file T S hash = Ok (dbs, c) /\
    (forall e, count c e = Z.of_nat (length (filter (fun o => entity_of o = e) file))) /\
    (forall w, exists dbs_w,
        create_osm_index file S T w hash = Ok (dbs_w, c)).
Proof.
  intros HT HS. rewrite indexing_pass_map by done. do 2 eexists. split; [done|]. split.
  - intros e. rewrite tally_count. by destruct e.
  - intros w. destruct (create_osm_index_stores file S T w hash) as (dbs & Hrun & _); [lia..|].
    by exists dbs.
Qed.







(** X4.  The stores and the counter the indexing pass returns do not
    depend on the number of workers, as long as it divides the number of
    shards. *)
Theorem worker_count_does_not_change_the_result (file : list osm_object) (T T' S : Z)
    (hash : bool) :
  0 < T -> 0 < T' -> 0 < S -> (T | S) -> (T' | S) ->
  run_create_osm_index_in_parallel file T S hash
  = run_create_osm_index_in_parallel file T' S hash.
Proof.
  intros HT HT' HS [k Hk] [k' Hk'].
  rewrite !indexing_pass_map by done.
  rewrite (ceil_div_multiple S T) by (lia || by exists k).
  rewrite (ceil_div_multiple S T') by (lia || by exists k').
  replace (T * (S / T)) with S; [replace (T' * (S / T')) with S; [done|]|].
  - rewrite Hk' at 2. rewrite Z.div_mul by lia. lia.
  - rewrite Hk at 2. rewrite Z.div_mul by lia. lia.
Qed.








End IndexingPass.

(** ** File names and URIs *)

Section Names.
Implicit Types s t sep : string.

Lemma string_app_cons c s t : String c s +:+ t = String c (s +:+ t).
Proof. done. Qed.

Lemma string_app_nil_r s : s +:+ EmptyString = s.
Proof. induction s as [|c s IH]; [done|]. by rewrite string_app_cons, IH. Qed.

Lemma string_app_assoc s t u : (s +:+ t) +:+ u = s +:+ t +:+ u.
Proof. induction s as [|c s IH]; [done|]. by rewrite !string_app_cons, IH. Qed.

Lemma string_length_app s t :
  String.length (s +:+ t) = (String.length s + String.length t)%nat.
Proof. induction s as [|c s IH]; [done|]. rewrite string_app_cons. cbn. by rewrite IH. Qed.

Lemma string_app_inj_r s t u : s +:+ u = t +:+ u -> s = t.
Proof.
  revert t. induction s as [|c s IH]; intros [|d t] Heq; [done|..].
  - apply (f_equal String.length) in Heq. rewrite !string_length_app in Heq.
    cbn [String.length] in Heq. lia.
  - apply (f_equal String.length) in Heq. rewrite !string_length_app in Heq.
    cbn [String.length] in Heq. lia.
  - rewrite !string_app_cons in Heq. injection Heq as -> Heq. f_equal. by apply IH.
Qed.

Lemma prefix_app sep t : String.prefix sep (sep +:+ t) = true.
Proof.
  induction sep as [|c sep IH]; [by destruct t|]. rewrite string_app_cons. cbn.
  by destruct (Ascii.ascii_dec c c).
Qed.

Lemma prefix_char c x s :
  String.prefix (String c EmptyString) (String x s) = bool_decide (c = x).
Proof.
  cbn. destruct (Ascii.ascii_dec c x).
  - rewrite bool_decide_eq_true_2 by done. by destruct s.
  - by rewrite bool_decide_eq_false_2.
Qed.

Lemma py_in_cons sep x s :
  py_in sep (String x s) = String.prefix sep (String x s) || py_in sep s.
Proof. done. Qed.

Lemma py_in_app_r sep s t : py_in sep t = true -> py_in sep (s +:+ t) = true.
Proof.
  intros Ht. induction s as [|c s IH]; [done|].
  rewrite string_app_cons, py_in_cons, IH. apply orb_true_r.
Qed.

Lemma py_in_prefix sep t : String.prefix sep t = true -> py_in sep t = true.
Proof. intros Hp. destruct t; cbn [py_in]; by rewrite Hp. Qed.

Lemma py_in_sep sep s t : py_in sep (s +:+ sep +:+ t) = true.
Proof. apply py_in_app_r, py_in_prefix, prefix_app. Qed.

(** A string without the separator is one piece. *)
Lemma split_without sep s : py_in sep s = false -> py_split sep s = [s].
Proof.
  unfold py_split. induction s as [|c s IH]; [done|].
  rewrite py_in_cons. intros [Hp Hs]%orb_false_elim.
  cbn [split_from]. rewrite Hp. by rewrite IH.
Qed.

Lemma split_nonempty sep skip s : split_from sep skip s <> [].
Proof.
  revert skip. induction s as [|c s IH]; intros skip; [done|].
  cbn [split_from]. destruct skip; [|apply IH].
  destruct (String.prefix sep (String c s)); [done|].
  by destruct (split_from sep 0 s).
Qed.

(** The pieces of a split on one character are free of it. *)
Lemma pieces_without c s :
  Forall (fun piece => py_in (String c EmptyString) piece = false)
         (py_split (String c EmptyString) s).
Proof.
  unfold py_split. induction s as [|x s IH]; [by repeat constructor|].
  cbn [split_from]. rewrite prefix_char. case_bool_decide as Hx.
  - constructor; [done|]. exact IH.
  - destruct (split_from (String c EmptyString) 0 s) as [|piece pieces].
    { constructor; [|done].
      by rewrite py_in_cons, prefix_char, bool_decide_eq_false_2 by done. }
    apply Forall_cons in IH as [Hpiece Hpieces]. constructor; [|done].
    rewrite py_in_cons, prefix_char, bool_decide_eq_false_2 by done. done.
Qed.

Lemma split_char_app c s t :
  py_in (String c EmptyString) s = false ->
  py_split (String c EmptyString) (s +:+ String c t)
  = s :: py_split (String c EmptyString) t.
Proof.
  unfold py_split. induction s as [|x s IH]; intros Hs.
  - change (EmptyString +:+ String c t) with (String c t).
    cbn [split_from]. rewrite prefix_char, bool_decide_eq_true_2 by done. done.
  - rewrite py_in_cons, prefix_char in Hs. apply orb_false_elim in Hs as [Hx Hs].
    rewrite string_app_cons.
    cbn [split_from]. rewrite prefix_char, Hx. by rewrite IH.
Qed.

(** What a split on one character leaves after the first piece ends with
    the part of the string after its last occurrence. *)
Lemma split_char_last c s :
  exists first rest,
    py_split (String c EmptyString) s = first :: rest /\
    (rest = [] -> first = s) /\
    (forall piece, last rest = Some piece -> exists front, s = front +:+ String c piece).
Proof.
  unfold py_split. induction s as [|x s (first & rest & Hsplit & Hone & Hlast)].
  - exists EmptyString, []. by repeat split.
  - cbn [split_from]. change (String.length (String c EmptyString) - 1)%nat with 0%nat.
    rewrite prefix_char, Hsplit. case_bool_decide as Hx.
    + subst x. exists EmptyString, (first :: rest). split; [done|]. split; [done|].
      intros piece Hpiece. destruct rest as [|second rest].
      * injection Hpiece as <-. exists EmptyString. by rewrite Hone.
      * destruct (Hlast piece) as (front & ->); [done|]. by exists (String c front).
    + exists (String x first), rest. split; [done|]. split.
      * intros Hrest. by rewrite Hone.
      * intros piece Hpiece. destruct (Hlast piece Hpiece) as (front & ->).
        by exists (String x front).
Qed.

Lemma split_char_ends c s t :
  py_in (String c EmptyString) t = false ->
  exists first rest,
    py_split (String c EmptyString) (s +:+ String c t) = first :: rest /\
    last rest = Some t.
Proof.
  intros Ht. unfold py_split. induction s as [|x s (first & rest & Hsplit & Hlast)].
  - change (EmptyString +:+ String c t) with (String c t).
    cbn [split_from]. rewrite prefix_char, bool_decide_eq_true_2 by done.
    exists EmptyString, [t]. split; [|done]. cbn. f_equal. by apply split_without.
  - rewrite string_app_cons.
    cbn [split_from]. change (String.length (String c EmptyString) - 1)%nat with 0%nat.
    rewrite prefix_char, Hsplit. case_bool_decide.
    + exists EmptyString, (first :: rest). split; [done|].
      destruct rest; [done|]. done.
    + by exists (String x first), rest.
Qed.

Lemma split_char_head c s :
  exists first rest,
    py_split (String c EmptyString) s = first :: rest /\
    (rest = [] -> first = s) /\
    (rest <> [] -> exists back, s = first +:+ String c back).
Proof.
  unfold py_split. induction s as [|x s (first & rest & Hsplit & Hone & Hmore)].
  - exists EmptyString, []. by repeat split.
  - cbn [split_from]. change (String.length (String c EmptyString) - 1)%nat with 0%nat.
    rewrite prefix_char, Hsplit. case_bool_decide as Hx.
    + subst x. exists EmptyString, (first :: rest). split; [done|]. split; [done|].
      intros _. by exists s.
    + exists (String x first), rest. split; [done|]. split.
      * intros Hrest. by rewrite Hone.
      * intros Hrest. destruct (Hmore Hrest) as (back & ->). by exists back.
Qed.

Lemma substring_all s : String.substring 0 (String.length s) s = s.
Proof. induction s as [|c s IH]; [done|]. cbn. by rewrite IH. Qed.

Lemma substring_app_l s t : String.substring 0 (String.length s) (s +:+ t) = s.
Proof.
  induction s as [|c s IH]; [by destruct t|]. rewrite string_app_cons. cbn. by rewrite IH.
Qed.

Lemma substring_app_r s t :
  String.substring (String.length s) (String.length t) (s +:+ t) = t.
Proof.
  induction s as [|c s IH]; [apply substring_all|]. rewrite string_app_cons. cbn. apply IH.
Qed.

Lemma py_index_in sep s : py_in sep s = true -> is_Some (py_index sep s).
Proof.
  induction s as [|c s IH]; cbn [py_in py_index].
  - destruct (String.prefix sep EmptyString); [by eexists|done].
  - destruct (String.prefix sep (String c s)); [by eexists|]. cbn.
    intros Hs. destruct (IH Hs) as [n ->]. by eexists.
Qed.

Lemma py_index_char_app c s t :
  py_in (String c EmptyString) s = false ->
  py_index (String c EmptyString) (s +:+ String c t) = Some (String.length s).
Proof.
  induction s as [|x s IH]; intros Hs.
  - change (EmptyString +:+ String c t) with (String c t).
    cbn [py_index]. by rewrite prefix_char, bool_decide_eq_true_2.
  - rewrite py_in_cons, prefix_char in Hs. apply orb_false_elim in Hs as [Hx Hs].
    rewrite string_app_cons. cbn [py_index]. rewrite prefix_char, Hx, IH by done. done.
Qed.

Lemma last_component dir name :
  py_in "/" name = false -> file_name_from_path (dir +:+ "/" +:+ name) = name.
Proof.
  intros Hname. unfold file_name_from_path. rewrite py_in_sep.
  change (dir +:+ "/" +:+ name) with (dir +:+ String "/" name).
  destruct (split_char_ends "/"%char dir name Hname) as (first & rest & -> & Hlast).
  destruct rest as [|second rest]; [done|].
  change (last (first :: second :: rest)) with (last (second :: rest)). by rewrite Hlast.
Qed.

Lemma first_stem stem rest :
  py_in "." stem = false -> file_name_without_ext (stem +:+ "." +:+ rest) = stem.
Proof.
  intros Hstem. unfold file_name_without_ext. rewrite py_in_sep.
  change (stem +:+ "." +:+ rest) with (stem +:+ String "." rest).
  by rewrite (split_char_app "."%char stem rest Hstem).
Qed.

(** X7.  [file_name_from_path] returns the part of the path after its
    last slash: the result holds no slash, the path is the result preceded
    by nothing or by a text that ends with a slash, and a path written as
    a directory, a slash and a name without slash gives the name back. *)
Theorem file_name_from_path_is_the_last_component (path : string) :
  py_in "/" (file_name_from_path path) = false /\
  (exists front,
      path = front +:+ file_name_from_path path /\
      (front = EmptyString \/ exists dir, front = dir +:+ "/")) /\
  (forall dir name,
      path = dir +:+ "/" +:+ name -> py_in "/" name = false ->
      file_name_from_path path = name).
Proof.
  split; [|split]; [unfold file_name_from_path..|].
  - destruct (py_in "/" path) eqn:Hin; [|done].
    pose proof (pieces_without "/"%char path) as Hpieces.
    destruct (last (py_split "/" path)) as [piece|] eqn:Hlast; [|done].
    apply last_Some_elem_of in Hlast. rewrite Forall_forall in Hpieces. by apply Hpieces.
  - destruct (py_in "/" path) eqn:Hin; [|exists EmptyString; by split; [|left]].
    destruct (split_char_last "/"%char path) as (first & rest & Hsplit & Hone & Hlast).
    pose proof (pieces_without "/"%char path) as Hpieces. rewrite Hsplit in Hpieces |- *.
    destruct rest as [|second rest].
    { apply Forall_cons in Hpieces as [Hfirst _]. rewrite Hone in Hfirst by done. congruence. }
    change (last (first :: second :: rest)) with (last (second :: rest)).
    destruct (last (second :: rest)) as [piece|] eqn:Hpiece.
    + destruct (Hlast piece eq_refl) as (front & Hpath). exists (front +:+ "/"). split.
      * by rewrite string_app_assoc.
      * right. by exists front.
    + by apply last_None in Hpiece.
  - intros dir name -> Hname. by apply last_component.
Qed.

(** X8.  [file_name_without_ext] cuts at the first dot, wherever it is:
    the result holds no dot, the name is the result followed by nothing or
    by a text that starts with a dot, and a name written as a stem without
    dot, a dot and anything gives the stem.  A dot in a directory of a
    path therefore cuts the path there. *)
Theorem file_name_without_ext_cuts_at_the_first_dot (file_name : string) :
  py_in "." (file_name_without_ext file_name) = false /\
  (exists back,
      file_name = file_name_without_ext file_name +:+ back /\
      (back = EmptyString \/ exists rest, back = "." +:+ rest)) /\
  (forall stem rest,
      file_name = stem +:+ "." +:+ rest -> py_in "." stem = false ->
      file_name_without_ext file_name = stem).
Proof.
  split; [|split]; [unfold file_name_without_ext..|].
  - destruct (py_in "." file_name) eqn:Hin; [|done].
    pose proof (pieces_without "."%char file_name) as Hpieces.
    destruct (py_split "." file_name) as [|first rest]; [done|].
    by apply Forall_cons in Hpieces as [Hfirst _].
  - destruct (py_in "." file_name) eqn:Hin.
    2:{ exists EmptyString. split; [by rewrite string_app_nil_r|by left]. }
    destruct (split_char_head "."%char file_name) as (first & rest & Hsplit & Hone & Hmore).
    rewrite Hsplit. cbn [head default].
    destruct rest as [|second rest].
    { pose proof (pieces_without "."%char file_name) as Hpieces. rewrite Hsplit in Hpieces.
      apply Forall_cons in Hpieces as [Hfirst _]. rewrite Hone in Hfirst by done. congruence. }
    destruct Hmore as (back & Hname); [done|]. exists ("." +:+ back). split; [done|].
    right. by exists back.
  - intros stem rest -> Hstem. by apply first_stem.
Qed.

(** X9.  Two stores never share a file: for one source file, the files of
    two different shards have different names, and the file of the merged
    store differs from the file of every shard. *)
Theorem store_files_are_distinct (dest_local_file_path : string) (p q : db_path) :
  p <> q -> db_file_name dest_local_file_path p <> db_file_name dest_local_file_path q.
Proof.
  intros Hpq Heq. apply Hpq. clear Hpq.
  destruct p as [i|], q as [j|]; [|exfalso..|done];
    unfold db_file_name, index_db_file_path, merged_index_db_file_path in Heq.
  - apply (inj (String.append _)) in Heq. injection Heq as Heq.
    change (pretty i +:+ ".sqlite.db" = pretty j +:+ ".sqlite.db") in Heq.
    apply string_app_inj_r in Heq. f_equal. by apply (inj pretty).
  - apply (inj (String.append _)) in Heq. discriminate Heq.
  - apply (inj (String.append _)) in Heq. discriminate Heq.
Qed.

Lemma prefix_cons c sep x s :
  String.prefix (String c sep) (String x s) = bool_decide (c = x) && String.prefix sep s.
Proof.
  cbn. destruct (Ascii.ascii_dec c x).
  - by rewrite bool_decide_eq_true_2.
  - by rewrite bool_decide_eq_false_2.
Qed.

Lemma split_double_slash s t :
  py_in "/" s = false ->
  py_split "//" (s +:+ "//" +:+ t) = s :: py_split "//" t.
Proof.
  unfold py_split. induction s as [|x s IH]; intros Hs.
  - change (EmptyString +:+ "//" +:+ t) with (String "/" (String "/" t)).
    cbn [split_from]. rewrite prefix_cons, bool_decide_eq_true_2 by done.
    rewrite prefix_char, bool_decide_eq_true_2 by done. cbn [andb String.length Nat.sub].
    done.
  - rewrite py_in_cons, prefix_char in Hs. apply orb_false_elim in Hs as [Hx Hs].
    rewrite string_app_cons. cbn [split_from]. rewrite prefix_cons, Hx. cbn [andb].
    by rewrite IH.
Qed.

Lemma py_in_double_slash_app s t :
  py_in "/" s = false -> py_in "//" (s +:+ t) = py_in "//" t.
Proof.
  induction s as [|x s IH]; intros Hs; [done|].
  rewrite py_in_cons, prefix_char in Hs. apply orb_false_elim in Hs as [Hx Hs].
  rewrite string_app_cons, py_in_cons, prefix_cons, Hx. cbn [andb orb]. by apply IH.
Qed.

Lemma slice_to_app s t :
  slice_to (s +:+ t) (Z.of_nat (String.length s)) = s.
Proof.
  unfold slice_to, slice_bound. rewrite string_length_app.
  rewrite decide_False by lia. rewrite Z.min_l by lia.
  rewrite Nat2Z.id. apply substring_app_l.
Qed.

Lemma slice_from_app s t (start : Z) :
  t <> EmptyString ->
  start = - Z.of_nat (String.length t) ->
  slice_from (s +:+ t) start = t.
Proof.
  intros Ht ->. unfold slice_from, slice_bound. rewrite string_length_app.
  assert (0 < String.length t)%nat by (destruct t; [done|cbn; lia]).
  rewrite decide_True by lia. rewrite Z.max_l by lia.
  replace (Z.to_nat (Z.of_nat (String.length s + String.length t)
                     + - Z.of_nat (String.length t))) with (String.length s) by lia.
  replace (Z.to_nat (Z.of_nat (String.length s + String.length t)
                     - (Z.of_nat (String.length s + String.length t)
                        + - Z.of_nat (String.length t)))) with (String.length t) by lia.
  apply substring_app_r.
Qed.

Lemma slice_from_zero s : slice_from s 0 = s.
Proof.
  unfold slice_from, slice_bound. rewrite decide_False by lia. rewrite Z.min_l by lia.
  rewrite Z.sub_0_r, Nat2Z.id. apply substring_all.
Qed.

(** X10.  A URI made of a scheme without slash, two slashes, a bucket
    without slash, a slash and a name that is not empty and holds no
    double slash is divided into the bucket and the name. *)
Theorem parse_uri_gives_bucket_and_name (scheme bucket name : string) :
  py_in "/" scheme = false ->
  py_in "/" bucket = false ->
  name <> EmptyString ->
  py_in "//" ("/" +:+ name) = false ->
  parse_uri_to_bucket_and_filename (scheme +:+ "//" +:+ bucket +:+ "/" +:+ name)
  = Ok (bucket, name).
Proof.
  intros Hscheme Hbucket Hname Hdouble. unfold parse_uri_to_bucket_and_filename.
  rewrite split_double_slash by done.
  rewrite (split_without "//" (bucket +:+ "/" +:+ name))
    by by rewrite py_in_double_slash_app.
  cbv zeta. rewrite py_in_sep.
  change (bucket +:+ "/" +:+ name) with (bucket +:+ String "/" name).
  rewrite py_index_char_app by done.
  rewrite slice_to_app. f_equal. f_equal.
  change (bucket +:+ String "/" name) with (bucket +:+ "/" +:+ name).
  rewrite <- (string_app_assoc bucket "/" name).
  apply slice_from_app; [done|].
  rewrite !string_length_app. cbn [String.length]. lia.
Qed.

(** X11.  The degenerate URIs.  A URI that stops at the slash after the
    bucket does not give an empty name: the second part is the bucket
    followed by the slash.  A URI without a slash after the bucket, or
    without a double slash at all, gives two empty strings.  No input
    makes the function raise. *)
Theorem parse_uri_without_a_name (scheme bucket : string) :
  py_in "/" scheme = false ->
  py_in "/" bucket = false ->
  parse_uri_to_bucket_and_filename (scheme +:+ "//" +:+ bucket +:+ "/")
  = Ok (bucket, bucket +:+ "/") /\
  parse_uri_to_bucket_and_filename (scheme +:+ "//" +:+ bucket)
  = Ok (EmptyString, EmptyString) /\
  (forall file_path,
      py_in "//" file_path = false ->
      parse_uri_to_bucket_and_filename file_path = Ok (EmptyString, EmptyString)) /\
  (forall file_path,
      exists bucket_name file_name,
        parse_uri_to_bucket_and_filename file_path = Ok (bucket_name, file_name)).
Proof.
  intros Hscheme Hbucket. unfold parse_uri_to_bucket_and_filename.
  split; [|split; [|split]].
  - rewrite split_double_slash by done.
    rewrite (split_without "//" (bucket +:+ "/")).
    2:{ rewrite py_in_double_slash_app by done. done. }
    cbv zeta. change (bucket +:+ "/") with (bucket +:+ "/" +:+ EmptyString).
    rewrite (py_in_sep "/" bucket EmptyString).
    change (bucket +:+ "/" +:+ EmptyString) with (bucket +:+ String "/" EmptyString).
    rewrite (py_index_char_app "/"%char bucket EmptyString) by done.
    rewrite slice_to_app. f_equal. f_equal.
    rewrite string_length_app. cbn [String.length].
    replace (Z.of_nat (String.length bucket) + 1
             - Z.of_nat (String.length bucket + 1)) with 0 by lia.
    apply slice_from_zero.
  - rewrite split_double_slash by done.
    rewrite (split_without "//" bucket).
    2:{ rewrite <- (string_app_nil_r bucket). rewrite py_in_double_slash_app by done. done. }
    by rewrite Hbucket.
  - intros file_path Hno. by rewrite split_without.
  - intros file_path. destruct (py_split "//" file_path) as [|? [|main_part ?]];
      [by eexists _, _..|].
    destruct (py_in "/" main_part) eqn:Hin; [|by eexists _, _].
    destruct (py_index_in _ _ Hin) as [divide_index ->]. by eexists _, _.
Qed.

(** X12.  Where the store files go.  For a source object [dir/stem.ext]
    and a data directory without dot, the store of a shard is the file
    [stem_<shard>.sqlite.db] of the data directory and the merged store
    is its file [stem.sqlite.db]. *)
Theorem store_files_are_named_after_the_source (data_dir dir stem ext : string)
    (path : db_path) :
  py_in "." (data_dir +:+ stem) = false ->
  py_in "/" (stem +:+ "." +:+ ext) = false ->
  db_file_name (dest_local_file_path data_dir (dir +:+ "/" +:+ stem +:+ "." +:+ ext)) path
  = match path with
    | ShardDb shard_index =>
        data_dir +:+ stem +:+ "_" +:+ pretty shard_index +:+ ".sqlite.db"
    | MergedDb => data_dir +:+ stem +:+ ".sqlite.db"
    end.
Proof.
  intros Hdot Hslash.
  unfold db_file_name, index_db_file_path, merged_index_db_file_path, dest_local_file_path.
  rewrite last_component by done.
  rewrite <- (string_app_assoc data_dir stem). rewrite first_stem by done.
  destruct path; by rewrite string_app_assoc.
Qed.

(** X13.  A dot in the data directory takes the place of the dot of the
    extension: the name of a store file is then cut inside the data
    directory and is the same for every source file. *)
Theorem dot_in_data_dir_hides_the_source (front back src_name : string) (path : db_path) :
  py_in "." front = false ->
  db_file_name (dest_local_file_path (front +:+ "." +:+ back) src_name) path
  = match path with
    | ShardDb shard_index => front +:+ "_" +:+ pretty shard_index +:+ ".sqlite.db"
    | MergedDb => front +:+ ".sqlite.db"
    end.
Proof.
  intros Hfront.
  unfold db_file_name, index_db_file_path, merged_index_db_file_path, dest_local_file_path.
  rewrite !string_app_assoc. change ("." +:+ back +:+ file_name_from_path src_name)
    with ("." +:+ (back +:+ file_name_from_path src_name)).
  rewrite first_stem by done. by destruct path.
Qed.
End Names.

(** ** More of the resolution pass *)

Section ResolutionPass.
Context `{External}.
















(** X16.  The main program needs a positive worker count.  With zero
    workers the divisibility check itself divides by zero; with a negative
    count the run stops at the divisibility check or, when that passes,
    at the creation of the worker pool.  In no case is a record read. *)
Theorem main_needs_a_positive_worker_count (file : list osm_object) (T S : Z)
    (merge hash : bool) :
  T <= 0 ->
  main file T S merge hash
  = Raise (if decide (T = 0) then ZeroDivisionError
           else if decide (Z.max S T mod T = 0) then ValueError
           else ShardsNotDivisible).
Proof.
  intros HT. unfold main, startup.
  assert (Hadj : (if decide (T > S) then T else S) = Z.max S T) by (case_decide; lia).
  rewrite Hadj. clear Hadj. destruct (decide (T = 0)) as [Hzero|Hzero]; [done|].
  destruct (decide (Z.max S T mod T = 0)) as [Hdiv|Hdiv].
  - rewrite decide_False by lia. unfold run_create_osm_index_in_parallel.
    by rewrite decide_True by lia.
  - by rewrite decide_True.
Qed.
End ResolutionPass.

(** ** Dealing records to the workers of a pool *)

Section Pool.

(** X17.  [is_item_index_for_current_thread] deals the records of a kind
    to the workers in turn: after a callback has counted a record, exactly
    one index from [0] to [pool_size - 1] answers yes for it, the counter
    of the kind modulo the pool size.  Before the first callback the
    question raises the key error of the empty kind, and a pool size of
    zero raises a division error. *)
Theorem one_worker_claims_each_record (self : OsmHandler.t) (e : entity) :
  OsmHandler.current_entity_type self = Some e ->
  0 < OsmHandler.pool_size self ->
  let owner := count (OsmHandler.processing_counter self) e mod OsmHandler.pool_size self in
  0 <= owner < OsmHandler.pool_size self /\
  (forall index,
      OsmHandler.is_item_index_for_current_thread (with_pool_index index self)
      = Ok (bool_decide (index = owner), with_pool_index index self)) /\
  (forall other : OsmHandler.t,
      OsmHandler.current_entity_type other = None ->
      OsmHandler.is_item_index_for_current_thread other = Raise EntityKeyError) /\
  (forall other : OsmHandler.t,
      OsmHandler.current_entity_type other = Some e ->
      OsmHandler.pool_size other = 0 ->
      OsmHandler.is_item_index_for_current_thread other = Raise ZeroDivisionError).
Proof.
  intros Hkind Hsize owner. split; [by apply Z.mod_pos_bound|]. split; [|split].
  - intros index.
    unfold OsmHandler.is_item_index_for_current_thread, OsmHandler.current_count.
    method_unfold. cbn. rewrite Hkind.
    change (OsmHandler.pool_size (with_pool_index index self))
      with (OsmHandler.pool_size self).
    rewrite decide_False by lia. unfold ret. cbn.
    f_equal. f_equal. fold owner. apply bool_decide_ext. split; by intros ->.
  - intros other Hnone.
    unfold OsmHandler.is_item_index_for_current_thread, OsmHandler.current_count.
    method_unfold. by rewrite Hnone.
  - intros other Hsome Hzero.
    unfold OsmHandler.is_item_index_for_current_thread, OsmHandler.current_count.
    method_unfold. rewrite Hsome. by rewrite decide_True.
Qed.
End Pool.

(** ** The relations of a stream *)

Section RelationsPhase.
Context `{External}.






Lemma rows_of_relations_none (file : list osm_object) :
  Forall (fun o => entity_of o <> relations) file -> rows_of_relations file = [].
Proof.
  induction 1 as [|o file Hkind _ IH]; [done|].
  destruct o; [| |done]; cbn [rows_of_relations omap list_omap]; apply IH.
Qed.


End RelationsPhase.

(** ** The dependencies gathered for a relation *)

Section RelationDependencies.
Context `{External}.

Lemma dict_set_keys {A} (key : Z) (v : A) (d : dict A) :
  (dict_set key v d).*1 = if bool_decide (key ∈ d.*1) then d.*1 else d.*1 ++ [key].
Proof.
  induction d as [|[k v'] d IH]; [done|]. cbn [dict_set].
  destruct (decide (k = key)) as [->|Hk].
  - rewrite bool_decide_eq_true_2 by (cbn; left). done.
  - cbn [fmap list_fmap fst]. rewrite IH. case_bool_decide as Hin.
    + rewrite bool_decide_eq_true_2 by (cbn; by right). done.
    + rewrite bool_decide_eq_false_2; [done|]. cbn. by intros [?|?]%elem_of_cons.
Qed.

Lemma dict_set_Forall {A} (P : Z * A -> Prop) (key : Z) (v : A) (d : dict A) :
  P (key, v) -> Forall P d -> Forall P (dict_set key v d).
Proof.
  intros Hnew. induction 1 as [|[k v'] d Hhead Htail IH]; cbn [dict_set].
  - by repeat constructor.
  - destruct (decide (k = key)) as [->|Hk]; by constructor.
Qed.

Lemma dict_set_keyed {A} (ident : A -> Z) (key : Z) (v : A) (d : dict A) :
  ident v = key -> keyed ident d -> keyed ident (dict_set key v d).
Proof.
  intros Hid [Hkeys Hvalues]. split.
  - rewrite dict_set_keys. case_bool_decide as Hin; [done|].
    apply NoDup_app. split; [done|]. split; [|apply NoDup_singleton].
    by intros k Hk ->%list_elem_of_singleton.
  - by apply dict_set_Forall.
Qed.

Lemma as_of_ident {A} (ident stamp : A -> Z) (rows : list A) (i ts : Z) (x : A) :
  as_of ident stamp rows i ts = Some x -> ident x = i.
Proof.
  unfold as_of.
  assert (Hgen : forall best,
             (forall b, best = Some b -> ident b = i) ->
             forall y,
               foldl (fun best x =>
                        if bool_decide (ident x = i /\ stamp x <= ts) then
                          match best with
                          | Some b => if bool_decide (stamp b <= stamp x) then Some x else best
                          | None => Some x
                          end
                        else best) best rows = Some y -> ident y = i).
  { induction rows as [|r rows IH]; intros best Hbest y; cbn [foldl]; [apply Hbest|].
    apply IH. intros b. case_bool_decide as Hr; [|apply Hbest].
    destruct best as [b'|].
    - case_bool_decide; [by intros [= <-]; destruct Hr|apply Hbest].
    - by intros [= <-]; destruct Hr. }
  apply Hgen. by intros b.
Qed.

Lemma located_node_as_of_spec self ts i x :
  located_node_as_of self ts i = Some x -> node_id x = i /\ is_Some (node_location x).
Proof.
  unfold located_node_as_of, get_node_from_index_by_timestamp.
  destruct (selected self i) as [ix|]; [|done]. cbn.
  destruct (as_of _ _ _ _ _) as [y|] eqn:Hrow; [|done].
  destruct (node_visible y || bool_decide _); [|done]. cbn.
  unfold is_node_dict_with_location. case_bool_decide; [|done].
  intros [= <-]. split; [by eapply as_of_ident|done].
Qed.

Lemma way_as_of_spec self ts i x : way_as_of self ts i = Some x -> way_id x = i.
Proof.
  unfold way_as_of, get_way_from_index_by_timestamp.
  destruct (selected self i) as [ix|]; [|done]. cbn.
  destruct (as_of _ _ _ _ _) as [y|] eqn:Hrow; [|done].
  destruct (way_visible y || bool_decide _); [|done].
  intros [= <-]. by eapply as_of_ident.
Qed.

Lemma fetch_node_keeps self ts nm i :
  keyed node_id nm -> located nm ->
  keyed node_id (fetch_node self ts nm i) /\ located (fetch_node self ts nm i).
Proof.
  intros Hkeyed Hlocated. unfold fetch_node.
  destruct (located_node_as_of self ts i) as [x|] eqn:Hx; [|done].
  apply located_node_as_of_spec in Hx as [Hid Hloc]. split.
  - by apply dict_set_keyed.
  - by apply dict_set_Forall.
Qed.

Lemma fetch_nodes_keep self ts nm ids :
  keyed node_id nm -> located nm ->
  keyed node_id (foldl (fetch_node self ts) nm ids)
  /\ located (foldl (fetch_node self ts) nm ids).
Proof.
  revert nm. induction ids as [|i ids IH]; intros nm Hkeyed Hlocated; [done|].
  cbn [foldl]. destruct (fetch_node_keeps self ts nm i Hkeyed Hlocated). by apply IH.
Qed.

Lemma member_step_keeps self member_id member_type ts nm wm (rm : dict Relation) :
  (forall obj_id, is_Some (selected self obj_id)) ->
  keyed node_id nm -> located nm -> keyed way_id wm ->
  exists nm' wm' evs,
    HH.append_relation_dependency_objects_dicts member_id member_type ts nm wm rm self
    = Ok ((nm', wm', rm), with_calls evs self) /\
    keyed node_id nm' /\ located nm' /\ keyed way_id wm'.
Proof.
  intros Hsel Hnm Hloc Hwm. destruct member_type.
  - cbn [HH.append_relation_dependency_objects_dicts].
    destruct (dict_mem member_id nm); cbn [negb].
    + exists nm, wm, []. by rewrite with_calls_nil.
    + unfold bind at 1. rewrite append_to_map by done. cbn.
      eexists _, _, _. split; [done|].
      destruct (fetch_node_keeps self ts nm member_id Hnm Hloc). done.
  - destruct (dict_mem member_id wm) eqn:Hmem.
    + cbn [HH.append_relation_dependency_objects_dicts]. rewrite Hmem. cbn.
      exists nm, wm, []. by rewrite with_calls_nil.
    + rewrite way_member_dependencies by done.
      destruct (way_as_of self ts member_id) as [way_dict|] eqn:Hway.
      * eexists _, _, _. split; [done|].
        destruct (fetch_nodes_keep self ts nm (way_nodes way_dict) Hnm Hloc).
        split; [done|]. split; [done|].
        apply dict_set_keyed; [|done]. by eapply way_as_of_spec.
      * eexists _, _, _. split; [done|]. done.
  - exists nm, wm, []. by rewrite with_calls_nil.
Qed.

Lemma members_loop_keeps self ts ms nm wm (rm : dict Relation) :
  (forall obj_id, is_Some (selected self obj_id)) ->
  keyed node_id nm -> located nm -> keyed way_id wm ->
  exists nm' wm' evs,
    for_fold ms (nm, wm, rm) (fun maps member =>
        HH.append_relation_dependency_objects_dicts (ref member) (type member)
          ts maps.1.1 maps.1.2 maps.2) self
    = Ok ((nm', wm', rm), with_calls evs self) /\
    keyed node_id nm' /\ located nm' /\ keyed way_id wm'.
Proof.
  revert self nm wm. induction ms as [|m ms IH]; intros self nm wm Hsel Hnm Hloc Hwm.
  - exists nm, wm, []. by rewrite with_calls_nil.
  - cbn [for_fold]. unfold bind at 1. cbn [fst snd].
    destruct (member_step_keeps self (ref m) (type m) ts nm wm rm Hsel Hnm Hloc Hwm)
      as (nm1 & wm1 & evs1 & -> & Hnm1 & Hloc1 & Hwm1).
    destruct (IH (with_calls evs1 self) nm1 wm1) as (nm2 & wm2 & evs2 & -> & Hkeep);
      [|done..|].
    { intros. by rewrite selected_with_calls. }
    exists nm2, wm2, (evs1 ++ evs2). by rewrite with_calls_app.
Qed.

Lemma keyed_values {A} (ident : A -> Z) (d : dict A) :
  keyed ident d -> NoDup (ident <$> dict_values d).
Proof.
  intros [Hkeys Hvalues]. unfold dict_values.
  replace (ident <$> d.*2) with d.*1; [done|].
  induction Hvalues as [|p d Hp _ IH]; [done|].
  apply NoDup_cons in Hkeys as [_ Hkeys]. cbn. rewrite Hp. f_equal. by apply IH.
Qed.

(** X19.  The dependencies handed on for a relation hold an id once:
    the node list has no two records of the same node id, although ways
    of the relation may share nodes and members may be repeated, every
    node of the list carries a location, the way list has no two records
    of the same way id, and the list of relations is empty. *)
Theorem relation_dependencies_hold_an_id_once (relation : Relation) (self : HH.t) :
  (forall obj_id, is_Some (selected self obj_id)) ->
  exists relation_nodes relation_ways self',
    HH.get_relation_and_its_dependencies_as_dict relation self
    = Ok ((relation, relation_nodes, relation_ways, []), self') /\
    NoDup (node_id <$> relation_nodes) /\
    Forall (fun x => is_Some (node_location x)) relation_nodes /\
    NoDup (way_id <$> relation_ways).
Proof.
  intros Hsel. unfold HH.get_relation_and_its_dependencies_as_dict.
  destruct (members_loop_keeps self (relation_timestamp relation) (members relation)
              [] [] [] Hsel)
    as (nm & wm & evs & Hloop & Hnm & Hloc & Hwm).
  { split; [apply NoDup_nil_2|apply Forall_nil_2]. }
  { apply Forall_nil_2. }
  { split; [apply NoDup_nil_2|apply Forall_nil_2]. }
  exists (dict_values nm), (dict_values wm), (with_calls evs self). split.
  { cbv zeta. unfold bind, dict in *. by rewrite Hloop. }
  split; [by apply keyed_values|]. split; [|by apply keyed_values].
  unfold dict_values. by apply Forall_fmap.
Qed.
End RelationDependencies.

(** ** The order of the rows of a shard *)

Section ShardOrder.
Context `{External}.

Lemma routed_sublist hash S c file s : routed hash S c file s `sublist_of` file.
Proof.
  revert c. induction file as [|o file IH]; intros c; cbn [routed]; [done|].
  case_decide; cbn [app].
  - by apply sublist_skip.
  - by apply sublist_cons.
Qed.

Lemma omap_sublist {A B} (f : A -> option B) (l1 l2 : list A) :
  l1 `sublist_of` l2 -> omap f l1 `sublist_of` omap f l2.
Proof.
  induction 1 as [|x l1 l2 _ IH|x l1 l2 _ IH]; cbn [omap list_omap]; [done|..].
  - destruct (f x); [by apply sublist_skip|done].
  - destruct (f x); [by apply sublist_cons|done].
Qed.

(** X20.  Inside every store the indexing pass returns, the rows keep the
    order of the stream: the node rows of a shard are a subsequence of the
    node versions of the stream, and so for ways and relations, in both
    partitioning modes and for any number of workers. *)
Theorem shard_rows_keep_stream_order (file : list osm_object) (T S : Z) (hash : bool) :
  0 < T -> 0 < S ->
  exists dbs c,
    run_create_osm_index_in_parallel file T S hash = Ok (dbs, c) /\
    forall s ix, dbs !! s = Some ix ->
      node_rows ix `sublist_of` rows_of_nodes file /\
      way_rows ix `sublist_of` rows_of_ways file /\
      relation_rows ix `sublist_of` rows_of_relations file.
Proof.
  intros HT HS. destruct (indexing_pass_result file T S hash HT HS) as (dbs & Hrun & Hdbs).
  exists dbs, (tally create_processing_counter file). split; [done|].
  intros s ix. rewrite Hdbs. case_decide; [|done]. intros [= <-].
  cbn [shard_store node_rows way_rows relation_rows].
  repeat split; apply omap_sublist, routed_sublist.
Qed.
End ShardOrder.

(** ** The theorems on the worked inputs *)

#[local] Existing Instance sample_collaborators.

Example indexing_builds_the_stores :
  run_create_osm_index_in_parallel history 1 2 true
  = Ok ({[ 0 := even_store; 1 := odd_store ]}, {| c_nodes := 3; c_ways := 2; c_relations := 1 |}).
Proof. vm_compute. reflexivity. Qed.

Lemma startup_shard_check_witness :
  startup 3 6 = Ok 6 /\ main history 4 6 true false = Raise ShardsNotDivisible.
Proof.
  split.
  - apply (startup_shard_check 3 6); [lia|]. exists 2. reflexivity.
  - apply (startup_shard_check 4 6); [lia|]. intros [k Hk]. rewrite decide_False in Hk by lia. lia.
Defined.

Lemma single_store_serves_every_lookup_witness :
  HH.get_osm_indexer_by_id 42 merged_handler
  = Ok (merge_dbs [even_store; odd_store], merged_handler).
Proof.
  apply (single_store_serves_every_lookup merged_handler); reflexivity.
Defined.


Lemma way_dependencies_as_of_way_timestamp_witness :
  HH.get_way_and_its_dependencies_as_dict way_9 sharded_handler
  = Ok ((way_9, [node_1_first; node_2]),
        with_calls [ShardComputed 1 1; NodeLookup (ShardDb 1) 1 20;
                    ShardComputed 2 0; NodeLookup (ShardDb 0) 2 20] sharded_handler) /\
  HH.get_way_and_its_dependencies_as_dict way_9_later sharded_handler
  = Ok ((way_9_later, [node_1_moved; node_2]),
        with_calls [ShardComputed 1 1; NodeLookup (ShardDb 1) 1 40;
                    ShardComputed 2 0; NodeLookup (ShardDb 0) 2 40] sharded_handler).
Proof.
  split.
  - rewrite (way_dependencies_as_of_way_timestamp way_9 sharded_handler); [reflexivity|].
    intros node Hin. cbn in Hin.
    apply elem_of_cons in Hin as [->|Hin]; [by eexists|].
    apply list_elem_of_singleton in Hin as ->. by eexists.
  - rewrite (way_dependencies_as_of_way_timestamp way_9_later sharded_handler); [reflexivity|].
    intros node Hin. cbn in Hin.
    apply elem_of_cons in Hin as [->|Hin]; [by eexists|].
    apply list_elem_of_singleton in Hin as ->. by eexists.
Defined.

Lemma sharded_handler_selects (obj_id : Z) : is_Some (selected sharded_handler obj_id).
Proof.
  unfold selected, HH.get_osm_indexer_by_id, HH.record_call,
    get_uniformly_shard_index_from_id. method_unfold.
  rewrite decide_False by (vm_compute; lia).
  rewrite decide_False by done. cbn.
  assert (Hcases : obj_id mod 2 = 0 \/ obj_id mod 2 = 1)
    by (pose proof (Z.mod_pos_bound obj_id 2); lia).
  destruct Hcases as [-> | ->]; by eexists.
Defined.



Lemma commit_when_kind_counter_due_witness :
  exists self',
    IC.callback (ONode node_2) small_batch_worker = Ok (tt, self') /\
    IC.osm_indexer_map self'
    = alter (put_row (ONode node_2)) 0 (IC.osm_indexer_map small_batch_worker).
Proof.
  destruct commit_when_kind_counter_due as (Hstep & _).
  destruct (Hstep (ONode node_2) small_batch_worker)
    as (self' & Hrun & _ & _ & Hstored).
  { repeat split; cbn; lia. }
  exists self'. split; [done|]. apply Hstored. by eexists.
Defined.

(** C9 as stated fails.  With a batch size of two: after the commit at the
    second node, a third node, a way and a relation are stored without any
    commit, which is more than two records.  With the batch size of the
    program: 999,999 nodes followed by 999,999 ways bring no counter to
    1,000,000, so all 1,999,998 records wait for a commit. *)
Lemma more_than_a_batch_uncommitted :
  (exists handler,
     IC.apply_file [ONode node_1_first; ONode node_1_moved; ONode node_2; OWay way_9;
                    ORelation relation_300] small_batch_worker = Ok (tt, handler) /\
     IC.batch_size_to_commit handler = 2 /\
     uncommitted (IC.osm_indexer_map handler) = 3%nat) /\
  (exists handler,
     run_index_creator
       (replicate (Z.to_nat 999999) (ONode node_2) ++ replicate (Z.to_nat 999999) (OWay way_9))
       (created_indexers 0 1) create_processing_counter 1 false 1 0 = Ok (tt, handler) /\
     IC.batch_size_to_commit handler = 1000000 /\
     Z.of_nat (uncommitted (IC.osm_indexer_map handler)) = 1999998).
Proof.
  split.
  - eexists. split; [vm_compute; reflexivity|]. split; reflexivity.
  - apply two_kinds_below_the_batch_size. apply Z2Nat.id. lia.
Qed.

Lemma relation_batched_iff_relation_member_witness :
  HH.relation relation_300 merged_handler
  = Ok (tt, HH.set_base (counted relations (HH.base merged_handler)) merged_handler) /\
  exists self',
    HH.relation relation_200 merged_handler = Ok (tt, self') /\
    lines (HH.entities_out_files_dict self') relations
    = [relation_line relation_200 (Some "LineString"%string)].
Proof.
  split.
  - apply (relation_batched_iff_relation_member relation_300 merged_handler); [cbn; lia|done].
  - destruct (relation_batched_iff_relation_member relation_200 merged_handler)
      as (_ & _ & Hbatched); [cbn; lia|].
    destruct Hbatched as (self' & sid & Hrun & _); [done| |].
    { intros obj_id. by eexists. }
    exists self'. split; [done|].
    revert Hrun. vm_compute. by intros [= <-].
Defined.

(** C2 as stated fails: relation 300 has a Way member and no Relation
    member; after the whole run, indexing pass included, the relations
    file holds no line at all, so none for relation 300. *)
Lemma relation_without_relation_member_dropped :
  HH.has_relation (members relation_300) = false /\
  exists handler,
    main history 1 1 true false = Ok handler /\
    lines (HH.entities_out_files_dict handler) relations = [] /\
    length (lines (HH.entities_out_files_dict handler) ways) = 2%nat.
Proof. split; [reflexivity|]. eexists. split; [vm_compute; reflexivity|]. by split. Qed.


(** ** The further theorems on the worked inputs *)

Lemma indexing_counts_every_record_witness :
  exists dbs c,
    run_create_osm_index_in_parallel history 1 2 false = Ok (dbs, c) /\
    (forall e, count c e = Z.of_nat (length (filter (fun o => entity_of o = e) history))) /\
    (forall w, exists dbs_w, create_osm_index history 2 1 w false = Ok (dbs_w, c)).
Proof. apply (indexing_counts_every_record history 1 2 false); lia. Defined.



Lemma worker_count_does_not_change_the_result_witness :
  run_create_osm_index_in_parallel history 1 2 false
  = run_create_osm_index_in_parallel history 2 2 false.
Proof.
  apply (worker_count_does_not_change_the_result history 1 2 2 false);
    [lia|lia|lia|by exists 2|by exists 1].
Defined.



Lemma file_name_from_path_is_the_last_component_witness :
  file_name_from_path "planet/history/extract.osm.pbf" = "extract.osm.pbf"%string.
Proof.
  destruct (file_name_from_path_is_the_last_component "planet/history/extract.osm.pbf")
    as (_ & _ & Hname).
  apply (Hname "planet/history"%string "extract.osm.pbf"%string); reflexivity.
Defined.

Lemma file_name_without_ext_cuts_at_the_first_dot_witness :
  file_name_without_ext "/data/extract.osm.pbf" = "/data/extract"%string.
Proof.
  destruct (file_name_without_ext_cuts_at_the_first_dot "/data/extract.osm.pbf")
    as (_ & _ & Hstem).
  apply (Hstem "/data/extract"%string "osm.pbf"%string); reflexivity.
Defined.

Lemma store_files_are_distinct_witness :
  db_file_name "/data/extract.osm.pbf" (ShardDb 1)
  <> db_file_name "/data/extract.osm.pbf" (ShardDb 11).
Proof. apply (store_files_are_distinct "/data/extract.osm.pbf" (ShardDb 1) (ShardDb 11)). discriminate. Defined.

Lemma parse_uri_gives_bucket_and_name_witness :
  parse_uri_to_bucket_and_filename "gs://osm/planet/extract.osm.pbf"
  = Ok ("osm"%string, "planet/extract.osm.pbf"%string).
Proof.
  apply (parse_uri_gives_bucket_and_name "gs:" "osm" "planet/extract.osm.pbf");
    [reflexivity|reflexivity|discriminate|reflexivity].
Defined.

Lemma parse_uri_without_a_name_witness :
  parse_uri_to_bucket_and_filename "gs://osm/" = Ok ("osm"%string, "osm/"%string) /\
  parse_uri_to_bucket_and_filename "gs://osm" = Ok (EmptyString, EmptyString).
Proof.
  destruct (parse_uri_without_a_name "gs:" "osm") as (Hslash & Hbare & _);
    [reflexivity|reflexivity|].
  split; [exact Hslash|exact Hbare].
Defined.

Lemma store_files_are_named_after_the_source_witness :
  db_file_name (dest_local_file_path "/data/" "planet/extract.osm.pbf") (ShardDb 2)
  = "/data/extract_2.sqlite.db"%string.
Proof.
  apply (store_files_are_named_after_the_source "/data/" "planet" "extract" "osm.pbf"
           (ShardDb 2)); reflexivity.
Defined.

Lemma dot_in_data_dir_hides_the_source_witness :
  db_file_name (dest_local_file_path "/mnt/data.v2/" "planet/extract.osm.pbf") (ShardDb 2)
  = "/mnt/data_2.sqlite.db"%string.
Proof.
  apply (dot_in_data_dir_hides_the_source "/mnt/data" "v2/" "planet/extract.osm.pbf"
           (ShardDb 2)); reflexivity.
Defined.



Lemma main_needs_a_positive_worker_count_witness :
  main history 0 3 true false = Raise ZeroDivisionError /\
  main history (-3) 3 true false = Raise ValueError /\
  main history (-2) 3 true false = Raise ShardsNotDivisible.
Proof.
  split; [|split].
  - apply (main_needs_a_positive_worker_count history 0 3 true false). lia.
  - apply (main_needs_a_positive_worker_count history (-3) 3 true false). lia.
  - apply (main_needs_a_positive_worker_count history (-2) 3 true false). lia.
Defined.

Lemma one_worker_claims_each_record_witness :
  OsmHandler.is_item_index_for_current_thread
    (with_pool_index 1
       (counted nodes (counted nodes (counted nodes
          (counted nodes (OsmHandler.init create_processing_counter 1000000 3 0))))))
  = Ok (true,
        with_pool_index 1
          (counted nodes (counted nodes (counted nodes
             (counted nodes (OsmHandler.init create_processing_counter 1000000 3 0)))))).
Proof.
  destruct (one_worker_claims_each_record
              (counted nodes (counted nodes (counted nodes
                 (counted nodes (OsmHandler.init create_processing_counter 1000000 3 0)))))
              nodes) as (_ & Hclaims & _); [reflexivity|reflexivity|].
  apply (Hclaims 1).
Defined.


Lemma relation_dependencies_hold_an_id_once_witness :
  exists relation_nodes relation_ways self',
    HH.get_relation_and_its_dependencies_as_dict
      (relation_at 400 31 [{| ref := 9; type := type_w; role := "outer" |};
                           {| ref := 1; type := type_n; role := "stop" |};
                           {| ref := 9; type := type_w; role := "inner" |}])
      sharded_handler
    = Ok ((relation_at 400 31 [{| ref := 9; type := type_w; role := "outer" |};
                               {| ref := 1; type := type_n; role := "stop" |};
                               {| ref := 9; type := type_w; role := "inner" |}],
           relation_nodes, relation_ways, []), self') /\
    NoDup (node_id <$> relation_nodes) /\
    Forall (fun x => is_Some (node_location x)) relation_nodes /\
    NoDup (way_id <$> relation_ways).
Proof.
  apply (relation_dependencies_hold_an_id_once
           (relation_at 400 31 [{| ref := 9; type := type_w; role := "outer" |};
                                {| ref := 1; type := type_n; role := "stop" |};
                                {| ref := 9; type := type_w; role := "inner" |}])
           sharded_handler).
  apply sharded_handler_selects.
Defined.

Lemma shard_rows_keep_stream_order_witness :
  exists dbs c,
    run_create_osm_index_in_parallel history 1 2 false = Ok (dbs, c) /\
    forall s ix, dbs !! s = Some ix ->
      node_rows ix `sublist_of` rows_of_nodes history /\
      way_rows ix `sublist_of` rows_of_ways history /\
      relation_rows ix `sublist_of` rows_of_relations history.
Proof. apply (shard_rows_keep_stream_order history 1 2 false); lia. Defined.
